(** * fastapi-performance-monitoring: the metrics middleware, the CRUD and
      health endpoints of [app/main.py] and the load driver of
      [tests/loadtest.py], embedded as Rocq functions.

    Layout: [Python] holds the few Python notions both files rely on
    (exceptions, JSON values, an exception-and-state monad); [Main] embeds
    [app/main.py]; [Loadtest] embeds [tests/loadtest.py]. The theorems
    follow the three modules. *)

From Stdlib Require Import PrimFloat Ascii Sorted.
From stdpp Require Import gmap strings list pretty.

Set Warnings "-register-all,-inexact-float".

(* ================================================================== *)
(** * Python: exceptions, JSON, sequencing with exceptions             *)
(* ================================================================== *)
Module Python.

(** A raised exception. Every value of this type is an instance of
    [Exception], the class the [except Exception] clauses of both files
    catch. [HTTPException] is kept apart because the framework answers it
    with a response of its own; any other exception carries its class name
    and its message. Interpreter signals that derive from [BaseException]
    only (KeyboardInterrupt, SystemExit, task cancellation) are not
    modelled. *)
Inductive exn : Type :=
  | HTTPException (status_code : Z) (detail : string)
  | Exception (cls : string) (msg : string).

(** [str(e)] *)
Definition str (e : exn) : string :=
  match e with
  | HTTPException c d => pretty c +:+ ": " +:+ d
  | Exception _ msg => msg
  end.

(** How a call ends: it returns a value or raises. *)
Inductive result (A : Type) : Type :=
  | Return (a : A)
  | Raise (e : exn).
Arguments Return {A} a.
Arguments Raise {A} e.

Definition returned {A} (r : result A) : bool :=
  match r with Return _ => true | Raise _ => false end.

(** JSON documents as [json.loads] and [Response.json()] produce them:
    None, bool, int, float, str, list, dict (keys in document order). *)
Inductive json : Type :=
  | JNull
  | JBool (b : bool)
  | JInt (z : Z)
  | JFloat (f : float)
  | JStr (s : string)
  | JArr (items : list json)
  | JObj (fields : list (string * json)).

(** Statements over a mutable state [S] that may raise: the state reached
    when an exception is raised is kept (Python undoes nothing). *)
Definition M (S A : Type) : Type := S → result A * S.

#[global] Instance M_ret {S} : MRet (M S) := λ A a s, (Return a, s).

#[global] Instance M_bind {S} : MBind (M S) := λ A B f m s,
  match m s with
  | (Return a, s') => f a s'
  | (Raise e, s') => (Raise e, s')
  end.

Definition raise {S A} (e : exn) : M S A := λ s, (Raise e, s).

Definition gets {S A} (f : S → A) : M S A := λ s, (Return (f s), s).

Definition modify {S} (f : S → S) : M S unit := λ s, (Return tt, f s).

(** [try: body  except Exception as e: handler e] *)
Definition try_except {S A} (body : M S A) (handler : exn → M S A) : M S A :=
  λ s, match body s with
       | (Return a, s') => (Return a, s')
       | (Raise e, s') => handler e s'
       end.

(** [if c: body] *)
Definition when {S} (c : bool) (body : M S unit) : M S unit :=
  if c then body else mret tt.

(** [for x in xs: body x] *)
Fixpoint for_each {S A} (xs : list A) (body : A → M S unit) : M S unit :=
  match xs with
  | [] => mret tt
  | x :: rest => body x ;; for_each rest body
  end.

(** A callee that works on a part [T] of the caller's state [S]. *)
Definition zoom {S T A} (get : S → T) (set : T → S → S) (m : M T A) : M S A :=
  λ s, let '(r, t) := m (get s) in (r, set t s).

End Python.

(* ================================================================== *)
(** * app/main.py                                                      *)
(* ================================================================== *)
Module Main.
Import Python.

(** ** Requests and responses *)

(** The two attributes of [Request] the file reads. *)
Record Request := { method : string; url_path : string }.

Record Response := { status_code : Z; content : json }.

(** ** Records and the database session *)

(** Modelled from the spec: [schemas.UserData] ([app/schemas.py] is not
    among the sources): "UserDataRecord: id: integer, unique,
    server-assigned; name: string; email: string; message: string". *)
Record UserData := { id : Z; name : string; email : string; message : string }.

(** Modelled from the spec: [schemas.UserDataCreate], the request body
    "name, email, message". *)
Record UserDataCreate := { new_name : string; new_email : string; new_message : string }.

(** The session [get_db] yields: the rows of the table in storage order,
    and what [db.execute(text(q))] does on this connection. *)
Record Session := {
  table : list UserData;
  execute : string → result unit }.

(** The module [crud] as the endpoints use it. [app/crud.py] is not among
    the sources, so the endpoints take it as an argument. *)
Record Crud := {
  get_user_data : Z → Z → M Session (list UserData);
  update_user_data : Z → UserDataCreate → M Session (option UserData);
  delete_user_data : Z → M Session (option UserData) }.

(** ** Metrics (lines 26-37) *)

Record Counter := {
  counter_name : string;
  counter_documentation : string;
  counter_labelnames : list string }.

Record Histogram := {
  histogram_name : string;
  histogram_documentation : string;
  histogram_labelnames : list string;
  buckets : list float }.

Record Gauge := { gauge_name : string; gauge_documentation : string }.

Definition REQUEST_COUNT : Counter :=
  {| counter_name := "http_requests_total";
     counter_documentation := "Total HTTP requests";
     counter_labelnames := ["method"; "endpoint"; "http_status"] |}.

Definition REQUEST_LATENCY : Histogram :=
  {| histogram_name := "http_request_duration_seconds";
     histogram_documentation := "HTTP request latency";
     histogram_labelnames := ["method"; "endpoint"; "http_status"];
     buckets := [0.1; 0.3; 0.5; 1; 3; 5]%float |}.

Definition IN_PROGRESS : Gauge :=
  {| gauge_name := "inprogress_requests";
     gauge_documentation := "In-progress HTTP requests" |}.

(** The values given to [.labels(...)], in the order of the label names. *)
Definition LabelValues : Type := string * string * Z.

(** What the three collectors hold. A counter child is the number of its
    [inc()] calls, a histogram child the values it observed (oldest first),
    the gauge an integer. *)
Record Registry := {
  request_count : gmap (string * string * Z) nat;
  request_latency : gmap (string * string * Z) (list float);
  in_progress : Z }.

Definition counter_value (r : Registry) (k : LabelValues) : nat :=
  default 0 (request_count r !! k).

Definition observations (r : Registry) (k : LabelValues) : list float :=
  default [] (request_latency r !! k).

(** The cumulative count of the bucket with upper bound [le]. *)
Definition bucket_count (r : Registry) (k : LabelValues) (le : float) : nat :=
  length (filter (λ v, PrimFloat.leb v le = true) (observations r k)).

Definition empty_registry : Registry :=
  {| request_count := ∅; request_latency := ∅; in_progress := 0 |}.

(** The state of the serving process: the collectors, the wall clock that
    [time.time()] reads, and the database session. The application below
    the middleware sees the clock and the session only. *)
Record World := { clock : float; db : Session }.

Record Process := { registry : Registry; world : World }.

Definition on_registry (f : Registry → Registry) : M Process unit :=
  modify (λ p, {| registry := f (registry p); world := world p |}).

(** [IN_PROGRESS.inc()] *)
Definition IN_PROGRESS_inc : M Process unit :=
  on_registry (λ r, {| request_count := request_count r;
                       request_latency := request_latency r;
                       in_progress := in_progress r + 1 |}).

(** [IN_PROGRESS.dec()] *)
Definition IN_PROGRESS_dec : M Process unit :=
  on_registry (λ r, {| request_count := request_count r;
                       request_latency := request_latency r;
                       in_progress := in_progress r - 1 |}).

(** [REQUEST_COUNT.labels(...).inc()] *)
Definition REQUEST_COUNT_labels_inc (k : LabelValues) : M Process unit :=
  on_registry (λ r, {| request_count := <[k := S (counter_value r k)]> (request_count r);
                       request_latency := request_latency r;
                       in_progress := in_progress r |}).

(** [REQUEST_LATENCY.labels(...).observe(v)] *)
Definition REQUEST_LATENCY_labels_observe (k : LabelValues) (v : float) : M Process unit :=
  on_registry (λ r, {| request_count := request_count r;
                       request_latency := <[k := observations r k ++ [v]]> (request_latency r);
                       in_progress := in_progress r |}).

(** [time.time()] *)
Definition time_time : M Process float := gets (λ p, clock (world p)).

(** [await call_next(request)]: the rest of the application runs on the
    world and leaves the collectors alone. *)
Definition await_call_next (call_next : Request → M World Response)
    (request : Request) : M Process Response :=
  zoom world (λ w p, {| registry := registry p; world := w |}) (call_next request).

(** ** The middleware (lines 50-65) *)
Definition metrics_middleware (request : Request)
    (call_next : Request → M World Response) : M Process Response :=
  IN_PROGRESS_inc ;;
  start ← time_time ;
  response ← await_call_next call_next request ;
  now ← time_time ;
  let latency := (now - start)%float in
  REQUEST_COUNT_labels_inc
    (method request, url_path request, status_code response) ;;
  REQUEST_LATENCY_labels_observe
    (method request, url_path request, status_code response) latency ;;
  IN_PROGRESS_dec ;;
  mret response.

(** ** Endpoints (lines 73-89 and 98-114) *)

(** [read_data]: an absent query parameter takes the default of the
    signature, [skip: int = 0, limit: int = 100]. *)
Definition read_data (crud : Crud) (skip limit : option Z) : M Session (list UserData) :=
  let skip := default 0%Z skip in
  let limit := default 100%Z limit in
  get_user_data crud skip limit.

Definition update_data (crud : Crud) (item_id : Z) (data : UserDataCreate)
    : M Session UserData :=
  updated ← update_user_data crud item_id data ;
  match updated with
  | None => raise (HTTPException 404 "Item not found")
  | Some row => mret row
  end.

Definition delete_data (crud : Crud) (item_id : Z) : M Session UserData :=
  deleted ← delete_user_data crud item_id ;
  match deleted with
  | None => raise (HTTPException 404 "Item not found")
  | Some row => mret row
  end.

(** [db.execute(text(q))] *)
Definition db_execute (q : string) : M Session unit := λ db, (execute db q, db).

Definition JSONResponse (status : Z) (body : json) : Response :=
  {| status_code := status; content := body |}.

(** [health_check] returns a dict on success and a ready [JSONResponse]
    from the [except] clause. *)
Definition health_check : M Session (json + Response) :=
  try_except
    (db_execute "SELECT 1" ;;
     mret (inl (JObj [("status", JStr "ok"); ("database", JStr "reachable")])))
    (λ e,
     mret (inr (JSONResponse 500
       (JObj [("status", JStr "error"); ("database", JStr "unreachable");
              ("detail", JStr (str e))])))).

(** ** The framework around an endpoint

    What FastAPI and Starlette do with what an endpoint returns or raises,
    as far as the endpoints above rely on it. *)

(** [response_model=schemas.UserData]: the record as a JSON object. *)
Definition UserData_json (r : UserData) : json :=
  JObj [("id", JInt (id r)); ("name", JStr (name r));
        ("email", JStr (email r)); ("message", JStr (message r))].

(** A returned value is serialised under the route's status code; an
    [HTTPException] becomes a response with its status and detail (the
    exception handler sits below the middleware); any other exception goes
    up through [call_next]. *)
Definition respond {A} (status : Z) (encode : A → json) (endpoint : M Session A)
    : M World Response :=
  zoom db (λ d w, {| clock := clock w; db := d |})
    (try_except
       (value ← endpoint ; mret (JSONResponse status (encode value)))
       (λ e, match e with
             | HTTPException c d => mret (JSONResponse c (JObj [("detail", JStr d)]))
             | Exception _ _ => raise e
             end)).

(** A returned [Response] is sent as it is. *)
Definition respond_either (status : Z) (endpoint : M Session (json + Response))
    : M World Response :=
  zoom db (λ d w, {| clock := clock w; db := d |})
    (value ← endpoint ;
     match value with
     | inl body => mret (JSONResponse status body)
     | inr response => mret response
     end).

(** [@app.get("/data", response_model=list[schemas.UserData])] *)
Definition GET_data (crud : Crud) (skip limit : option Z) : M World Response :=
  respond 200 (λ rows, JArr (UserData_json <$> rows)) (read_data crud skip limit).

(** [@app.put("/data/{item_id}", response_model=schemas.UserData)] *)
Definition PUT_data (crud : Crud) (item_id : Z) (data : UserDataCreate) : M World Response :=
  respond 200 UserData_json (update_data crud item_id data).

(** [@app.delete("/data/{item_id}", response_model=schemas.UserData)] *)
Definition DELETE_data (crud : Crud) (item_id : Z) : M World Response :=
  respond 200 UserData_json (delete_data crud item_id).

(** [@app.get("/health", tags=["health"])] *)
Definition GET_health : M World Response := respond_either 200 health_check.

(** The routes the decorators register, in order. *)
Definition routes : list (string * string) :=
  [("POST", "/data"); ("GET", "/data"); ("PUT", "/data/{item_id}");
   ("DELETE", "/data/{item_id}"); ("GET", "/metrics"); ("GET", "/health")].

(** The outermost layer of the server: an exception that reaches it is
    answered with a plain 500. *)
Definition serve (call_next : Request → M World Response) (request : Request)
    : M Process Response :=
  try_except (metrics_middleware request call_next)
    (λ _, mret {| status_code := 500; content := JStr "Internal Server Error" |}).

(** Requests served one after the other. *)
Fixpoint serve_all (call_next : Request → M World Response) (requests : list Request)
    : M Process (list Response) :=
  match requests with
  | [] => mret []
  | request :: rest =>
      response ← serve call_next request ;
      responses ← serve_all call_next rest ;
      mret (response :: responses)
  end.

(** ** The module [crud], modelled *)

(** Modelled from the spec: [crud.get_user_data] ([app/crud.py] is not
    among the sources): "returns up to limit records starting after skip,
    in storage-defined order". The spec leaves negative arguments open;
    here they count as 0. *)
Definition spec_get_user_data (skip limit : Z) : M Session (list UserData) :=
  gets (λ s, take (Z.to_nat limit) (drop (Z.to_nat skip) (table s))).

Definition has_id (item_id : Z) (r : UserData) : bool := bool_decide (id r = item_id).

(** Modelled from the spec: [crud.update_user_data]: "replaces all mutable
    fields of the record matching id. Returns NotFound if no such id
    exists. Fully overwrites". *)
Definition spec_update_user_data (item_id : Z) (data : UserDataCreate)
    : M Session (option UserData) :=
  λ s,
    match find (has_id item_id) (table s) with
    | None => (Return None, s)
    | Some old =>
        let row := {| id := id old; name := new_name data;
                      email := new_email data; message := new_message data |} in
        (Return (Some row),
         {| table := (λ r, if has_id item_id r then row else r) <$> table s;
            execute := execute s |})
    end.

(** Modelled from the spec: [crud.delete_user_data]: "removes the record
    matching id, returns the deleted record. Returns NotFound if no such
    id exists". *)
Definition spec_delete_user_data (item_id : Z) : M Session (option UserData) :=
  λ s,
    match find (has_id item_id) (table s) with
    | None => (Return None, s)
    | Some old =>
        (Return (Some old),
         {| table := filter (λ r, has_id item_id r = false) (table s);
            execute := execute s |})
    end.

Definition spec_crud : Crud :=
  {| get_user_data := spec_get_user_data;
     update_user_data := spec_update_user_data;
     delete_user_data := spec_delete_user_data |}.

(** A store that cannot be reached: every call raises. *)
Definition OperationalError : exn :=
  Exception "sqlalchemy.exc.OperationalError" "connection refused".

Definition unreachable_crud : Crud :=
  {| get_user_data := λ _ _, raise OperationalError;
     update_user_data := λ _ _, raise OperationalError;
     delete_user_data := λ _, raise OperationalError |}.

(** ** Route templates, in the spec's sense *)

(** The segments of a path between its slashes. *)
Fixpoint segments_from (current : string) (s : string) : list string :=
  match s with
  | EmptyString => [current]
  | String c rest =>
      if bool_decide (c = "/"%char)
      then current :: segments_from "" rest
      else segments_from (current +:+ String c EmptyString) rest
  end.

Definition segments (s : string) : list string := segments_from "" s.

(** A template segment [{param}] stands for any segment that is not empty. *)
Definition segment_matches (template path : string) : bool :=
  match template with
  | String "{" _ => negb (bool_decide (path = ""))
  | _ => bool_decide (template = path)
  end.

Fixpoint segments_match (template path : list string) : bool :=
  match template, path with
  | [], [] => true
  | t :: template', p :: path' => segment_matches t p && segments_match template' path'
  | _, _ => false
  end.

(** The normalised route of a request: the template of the first route of
    its method whose pattern its path fits. *)
Definition route_template (request : Request) : option string :=
  snd <$> find (λ route, bool_decide (fst route = method request)
                          && segments_match (segments (snd route))
                                            (segments (url_path request)))
               routes.

End Main.

(* ================================================================== *)
(** * tests/loadtest.py                                                *)
(* ================================================================== *)
Module Loadtest.
Import Python.

(** ** Configuration (lines 9-18) *)

Inductive Op := create | read | update | delete.

(** The key of [OP_WEIGHTS] an operation stands for. *)
Definition op_name (op : Op) : string :=
  match op with
  | create => "create" | read => "read" | update => "update" | delete => "delete"
  end.

Record Config := {
  API_URL : string;
  CONCURRENCY : nat;
  REQUESTS_PER_CLIENT : nat;
  OP_WEIGHTS : list (Op * nat);
  METRICS_EVERY : nat }.

(** The constants of the file. *)
Definition config : Config :=
  {| API_URL := "https://66dbf2bd6722fdb9097e9d87-lb-426.bm-southeast.lab.poridhi.io";
     CONCURRENCY := 10;
     REQUESTS_PER_CLIENT := 100;
     OP_WEIGHTS := [(create, 2); (read, 5); (update, 2); (delete, 1)];
     METRICS_EVERY := 10 |}.

(** ** The HTTP client *)

Inductive Verb := GET | POST | PUT | DELETE.

(** The three shapes of URL the worker builds; [url_data_item v] is
    [f"/data/{v}"] for the JSON value [v] found under the key ["id"]. *)
Inductive Url :=
  | url_data
  | url_data_item (item_id : json)
  | url_metrics.

Record HttpRequest := { verb : Verb; url : Url; json_body : option json }.

(** A response as the worker reads it: [resp.status_code] and what
    [resp.json()] does. *)
Record HttpResponse := { status_code : Z; json_ : result json }.

(** What a worker does that can be seen from outside, in order. *)
Inductive Event :=
  | Sent (request : HttpRequest)
  | Printed (line : string)
  | Slept (seconds : float)
  | Reported (duration : float).

(** Everything a worker does not decide itself, per iteration [i] of its
    loop: the operation [random.choices] draws, how each request it sends
    ends (a response, or an exception of the client), the index
    [random.choice] draws below a bound, and the pause [random.uniform]
    draws. *)
Record Env := {
  random_choices : nat → Op;
  send : nat → HttpRequest → result HttpResponse;
  randbelow : nat → nat → nat;
  random_uniform : nat → float }.

Definition lift {A} (r : result A) : M (list Event) A := λ log, (r, log).

Definition emit (e : Event) : M (list Event) unit := modify (λ log, log ++ [e]).

Definition print (line : string) : M (list Event) unit := emit (Printed line).

Definition asyncio_sleep (seconds : float) : M (list Event) unit := emit (Slept seconds).

Definition request (env : Env) (i : nat) (r : HttpRequest) : M (list Event) HttpResponse :=
  emit (Sent r) ;; lift (send env i r).

Definition client_get env i (u : Url) :=
  request env i {| verb := GET; url := u; json_body := None |}.
Definition client_post env i (u : Url) (body : json) :=
  request env i {| verb := POST; url := u; json_body := Some body |}.
Definition client_put env i (u : Url) (body : json) :=
  request env i {| verb := PUT; url := u; json_body := Some body |}.
Definition client_delete env i (u : Url) :=
  request env i {| verb := DELETE; url := u; json_body := None |}.

(** ** Python on JSON values *)

Definition TypeError (msg : string) : exn := Exception "TypeError" msg.
Definition KeyError (key : string) : exn := Exception "KeyError" ("'" +:+ key +:+ "'").
Definition IndexError (msg : string) : exn := Exception "IndexError" msg.
Definition ZeroDivisionError : exn :=
  Exception "ZeroDivisionError" "integer modulo by zero".

(** [if v:] *)
Definition truthy (v : json) : bool :=
  match v with
  | JNull => false
  | JBool b => b
  | JInt z => negb (bool_decide (z = 0%Z))
  | JFloat f => negb (PrimFloat.eqb f 0)
  | JStr s => negb (bool_decide (s = ""))
  | JArr items => negb (bool_decide (items = []))
  | JObj fields => negb (bool_decide (fields = []))
  end.

Fixpoint assoc (key : string) (fields : list (string * json)) : option json :=
  match fields with
  | [] => None
  | (k, v) :: rest => if String.eqb k key then Some v else assoc key rest
  end.

(** [v[key]] for a string [key] *)
Definition subscript (v : json) (key : string) : result json :=
  match v with
  | JObj fields =>
      match assoc key fields with
      | Some x => Return x
      | None => Raise (KeyError key)
      end
  | JArr _ => Raise (TypeError "list indices must be integers or slices, not str")
  | JStr _ => Raise (TypeError "string indices must be integers")
  | _ => Raise (TypeError "object is not subscriptable")
  end.

(** [v + suffix] for a string [suffix] *)
Definition add_str (v : json) (suffix : string) : result json :=
  match v with
  | JStr s => Return (JStr (s +:+ suffix))
  | _ => Raise (TypeError "unsupported operand type(s) for +")
  end.

Fixpoint string_get (k : nat) (s : string) : option ascii :=
  match s, k with
  | EmptyString, _ => None
  | String c _, O => Some c
  | String _ rest, S k' => string_get k' rest
  end.

(** [random.choice(seq)], that is [seq[randbelow(len(seq))]]. *)
Definition random_choice (draw : nat → nat) (seq : json) : result json :=
  match seq with
  | JArr items =>
      match items !! draw (length items) with
      | Some item => Return item
      | None => Raise (IndexError "list index out of range")
      end
  | JStr s =>
      match string_get (draw (String.length s)) s with
      | Some c => Return (JStr (String c EmptyString))
      | None => Raise (IndexError "string index out of range")
      end
  | JObj fields => Raise (Exception "KeyError" (pretty (draw (length fields))))
  | _ => Raise (TypeError "object has no len()")
  end.

(** [i % k == 0] *)
Definition divides (k i : nat) : result bool :=
  match k with
  | O => Raise ZeroDivisionError
  | S _ => Return (bool_decide (i mod k = 0))
  end.

(** ** The worker (lines 21-75) *)

(** The branch of the [if]/[elif] chain for [op] (lines 31-63). *)
Definition operation (env : Env) (name : string) (i : nat) (op : Op)
    : M (list Event) unit :=
  match op with
  | create =>
      let payload :=
        JObj [("name", JStr ("user_" +:+ name +:+ "_" +:+ pretty i));
              ("email", JStr (name +:+ "_" +:+ pretty i +:+ "@example.com"));
              ("message", JStr "load test")] in
      resp ← client_post env i url_data payload ;
      if bool_decide (status_code resp = 201%Z)
      then body ← lift (json_ resp) ;
           item_id ← lift (subscript body "id") ;
           mret tt
      else mret tt
  | read =>
      client_get env i url_data ;; mret tt
  | update =>
      r ← client_get env i url_data ;
      items ← lift (json_ r) ;
      if truthy items
      then item ← lift (random_choice (randbelow env i) items) ;
           item_name ← lift (subscript item "name") ;
           upd_name ← lift (add_str item_name "_upd") ;
           item_email ← lift (subscript item "email") ;
           let upd := JObj [("name", upd_name); ("email", item_email);
                            ("message", JStr "updated")] in
           item_id ← lift (subscript item "id") ;
           client_put env i (url_data_item item_id) upd ;; mret tt
      else mret tt
  | delete =>
      r ← client_get env i url_data ;
      items ← lift (json_ r) ;
      if truthy items
      then item ← lift (random_choice (randbelow env i) items) ;
           item_id ← lift (subscript item "id") ;
           client_delete env i (url_data_item item_id) ;; mret tt
      else mret tt
  end.

(** The scrape of lines 66-67. *)
Definition scrape (cfg : Config) (env : Env) (i : nat) : M (list Event) unit :=
  due ← lift (divides (METRICS_EVERY cfg) i) ;
  when due (client_get env i url_metrics ;; mret tt).

(** One pass through the body of the [for] loop (lines 24-73). *)
Definition iteration (cfg : Config) (env : Env) (name : string) (i : nat)
    : M (list Event) unit :=
  let op := random_choices env i in
  try_except
    (operation env name i op ;; scrape cfg env i)
    (λ e, print ("[" +:+ name +:+ "] error during " +:+ op_name op +:+ ": " +:+ str e)) ;;
  asyncio_sleep (random_uniform env i).

(** The worker. Opening and closing the [AsyncClient] of line 22 leaves no
    event. *)
Definition worker (cfg : Config) (env : Env) (name : string) : M (list Event) unit :=
  for_each (seq 0 (REQUESTS_PER_CLIENT cfg)) (iteration cfg env name) ;;
  print ("[" +:+ name +:+ "] done").

(** ** The entry point (lines 78-83) *)

(** What the driver leaves behind: for each task, how it ended and what it
    did, and the driver's own output. *)
Record Driver := {
  tasks : list (result unit * list Event);
  output : list Event }.

(** [await asyncio.gather] over the tasks: every task runs on its own; the first
    exception of a task, if any, is raised to the caller. *)
Definition asyncio_gather (coroutines : list (M (list Event) unit)) : M Driver unit :=
  λ d,
    let ended := (λ c, c []) <$> coroutines in
    let d' := {| tasks := tasks d ++ ended; output := output d |} in
    match list_find (λ t, returned (fst t) = false) ended with
    | Some (_, (Raise e, _)) => (Raise e, d')
    | _ => (Return tt, d')
    end.

(** [envs i] is what the [i]-th worker meets; [time_time k] is the [k]-th
    reading of the clock. *)
Definition main (cfg : Config) (envs : nat → Env) (time_time : nat → float)
    : M Driver unit :=
  let start := time_time 0 in
  let tasks := (λ i, worker cfg (envs i) ("client" +:+ pretty i))
                 <$> seq 0 (CONCURRENCY cfg) in
  asyncio_gather tasks ;;
  let duration := PrimFloat.sub (time_time 1) start in
  modify (λ d, {| tasks := Loadtest.tasks d;
                  output := output d ++ [Reported duration] |}).

(** The events of iteration [i] alone. *)
Definition iteration_events (cfg : Config) (env : Env) (name : string) (i : nat)
    : list Event :=
  snd (iteration cfg env name i []).

Definition is_scrape (e : Event) : bool :=
  match e with
  | Sent {| verb := GET; url := url_metrics |} => true
  | _ => false
  end.

Definition is_write (e : Event) : bool :=
  match e with
  | Sent {| verb := PUT |} | Sent {| verb := DELETE |} => true
  | _ => false
  end.

(** How many scrapes a stretch of events holds. *)
Definition scrapes (events : list Event) : nat := length (List.filter is_scrape events).

End Loadtest.

(* ================================================================== *)
(** * Facts about app/main.py                                          *)
(* ================================================================== *)
Module MainFacts.
Import Python Main.

(** ** The two ways through the middleware *)

(** When the application below returns, the counter child of
    (method, path, status) grows by one, the histogram child of the same
    labels gets the latency, the gauge is back where it was, and the
    response goes out unchanged. *)
Lemma metrics_middleware_returns request call_next p response w' :
  call_next request (world p) = (Return response, w') →
  let k := (method request, url_path request, status_code response) in
  metrics_middleware request call_next p =
    (Return response,
     {| registry :=
          {| request_count :=
               <[k := S (counter_value (registry p) k)]> (request_count (registry p));
             request_latency :=
               <[k := observations (registry p) k ++ [(clock w' - clock (world p))%float]]>
                 (request_latency (registry p));
             in_progress := in_progress (registry p) + 1 - 1 |};
        world := w' |}).
Proof.
  intros Hnext k.
  unfold metrics_middleware, await_call_next, zoom, mbind, M_bind; cbn.
  rewrite Hnext. reflexivity.
Qed.

(** When the application below raises, the exception leaves the middleware
    after the gauge went up and before anything else was recorded. *)
Lemma metrics_middleware_raises request call_next p e w' :
  call_next request (world p) = (Raise e, w') →
  metrics_middleware request call_next p =
    (Raise e,
     {| registry :=
          {| request_count := request_count (registry p);
             request_latency := request_latency (registry p);
             in_progress := in_progress (registry p) + 1 |};
        world := w' |}).
Proof.
  intros Hnext.
  unfold metrics_middleware, await_call_next, zoom, mbind, M_bind; cbn.
  rewrite Hnext. reflexivity.
Qed.

Lemma gauge_restored_when_handler_returns request call_next p response w' :
  call_next request (world p) = (Return response, w') →
  in_progress (registry (snd (metrics_middleware request call_next p)))
  = in_progress (registry p).
Proof.
  intros Hnext. rewrite (metrics_middleware_returns _ _ _ _ _ Hnext). cbn. lia.
Qed.

(** The buckets of the child: a latency adds one to the cumulative count
    of every boundary it does not exceed. *)
Lemma bucket_count_after_request request call_next p response w' le :
  call_next request (world p) = (Return response, w') →
  let k := (method request, url_path request, status_code response) in
  bucket_count (registry (snd (metrics_middleware request call_next p))) k le
  = bucket_count (registry p) k le
    + if PrimFloat.leb (clock w' - clock (world p)) le then 1 else 0.
Proof.
  intros Hnext k. rewrite (metrics_middleware_returns _ _ _ _ _ Hnext).
  unfold bucket_count, observations at 1. cbn. fold k.
  rewrite lookup_insert_eq. cbn. rewrite filter_app, length_app. f_equal.
  destruct (PrimFloat.leb (clock w' - clock (world p)) le) eqn:Hle.
  - by rewrite filter_cons_True.
  - rewrite filter_cons_False; [done |]. by rewrite Hle.
Qed.

(** ** Requests that all return *)

(** The labels of a request that ended with [response]. *)
Definition labels (rr : Request * Response) : LabelValues :=
  (method rr.1, url_path rr.1, status_code rr.2).

Lemma serve_returns request call_next p response w' :
  call_next request (world p) = (Return response, w') →
  serve call_next request p
  = (Return response, snd (metrics_middleware request call_next p)).
Proof.
  intros Hnext. unfold serve, try_except.
  by rewrite (metrics_middleware_returns _ _ _ _ _ Hnext).
Qed.

(** As long as no handler raises, the bookkeeping of the middleware is
    exact: after any run of requests the gauge is back at its value before
    the run, and every counter child has grown by the number of requests
    that ended with its labels. *)
Lemma serve_all_accounting call_next :
  (∀ request w, returned (fst (call_next request w)) = true) →
  ∀ requests p,
    ∃ responses,
      fst (serve_all call_next requests p) = Return responses
      ∧ length responses = length requests
      ∧ in_progress (registry (snd (serve_all call_next requests p)))
        = in_progress (registry p)
      ∧ ∀ k, counter_value (registry (snd (serve_all call_next requests p))) k
             = counter_value (registry p) k
               + length (filter (λ rr, labels rr = k) (zip requests responses)).
Proof.
  intros Hreturns requests.
  induction requests as [| request requests IH]; intros p.
  - exists []. cbn. repeat split. intros k. lia.
  - specialize (Hreturns request (world p)).
    destruct (call_next request (world p)) as [[response | e] w'] eqn:Hnext;
      [clear Hreturns | discriminate Hreturns].
    set (p1 := snd (metrics_middleware request call_next p)).
    destruct (IH p1) as (responses & Hrun & Hlen & Hgauge & Hcount).
    destruct (serve_all call_next requests p1) as [[rs | e] p2] eqn:Hrest;
      cbn in Hrun; [| discriminate Hrun].
    injection Hrun as ->. cbn [fst snd] in *.
    assert (Hstep : serve_all call_next (request :: requests) p
                    = (Return (response :: responses), p2)).
    { cbn [serve_all]. unfold mbind, M_bind.
      rewrite (serve_returns _ _ _ _ _ Hnext). fold p1. by rewrite Hrest. }
    exists (response :: responses). rewrite Hstep. cbn [fst snd].
    split; [reflexivity |]. split; [cbn; by rewrite Hlen |].
    assert (Hp1 : in_progress (registry p1) = in_progress (registry p)).
    { subst p1. by eapply gauge_restored_when_handler_returns. }
    split; [by rewrite Hgauge |].
    intros k. rewrite Hcount. cbn [zip zip_with].
    subst p1. rewrite (metrics_middleware_returns _ _ _ _ _ Hnext).
    unfold counter_value at 1. cbn [snd registry request_count].
    destruct (decide (labels (request, response) = k)) as [<- | Hne].
    + rewrite filter_cons_True by done.
      unfold labels at 1. cbn [fst snd]. rewrite lookup_insert_eq. cbn.
      change (labels (request, response))
        with (method request, url_path request, status_code response).
      lia.
    + rewrite filter_cons_False by done.
      rewrite lookup_insert_ne by done. fold (counter_value (registry p) k). lia.
Qed.

(** The application with the store out of reach, and a process to run it. *)
Definition GET_data_request : Request := {| method := "GET"; url_path := "/data" |}.

Definition store_down (_ : Request) : M World Response :=
  GET_data unreachable_crud None None.

(** C1, at a request whose handler raises: [GET /data] while the store
    cannot be reached. The error leaves [call_next] as an exception, the
    middleware stops there, and the gauge is left one above its value
    before the request, for every state of the process; the server still
    answers the client (with 500), so with no request in progress any more
    the gauge stays one too high: started at 0 it reads 1. *)
Theorem gauge_left_incremented_when_handler_raises :
  ∀ p : Process,
    fst (metrics_middleware GET_data_request store_down p) = Raise OperationalError
    ∧ in_progress (registry (snd (metrics_middleware GET_data_request store_down p)))
      = (in_progress (registry p) + 1)%Z
    ∧ fst (serve_all store_down [GET_data_request] p)
      = Return [{| status_code := 500; content := JStr "Internal Server Error" |}]
    ∧ in_progress (registry (snd (serve_all store_down [GET_data_request] p)))
      = (in_progress (registry p) + 1)%Z.
Proof.
  intros [r [c d]]. cbn. repeat split.
Qed.

(** C3, at the same request: the client is answered 500, and neither a
    counter child nor a histogram child has changed; the child of
    (GET, /data, 500) does not count the request. *)
Theorem nothing_recorded_when_handler_raises :
  ∀ p : Process,
    let run := serve store_down GET_data_request p in
    fst run = Return {| status_code := 500; content := JStr "Internal Server Error" |}
    ∧ request_count (registry (snd run)) = request_count (registry p)
    ∧ request_latency (registry (snd run)) = request_latency (registry p)
    ∧ counter_value (registry (snd run)) ("GET", "/data", 500%Z)
      = counter_value (registry p) ("GET", "/data", 500%Z).
Proof.
  intros [r [c d]]. cbn. repeat split.
Qed.

(** ** Which labels the middleware uses *)

Definition PUT_42_request : Request := {| method := "PUT"; url_path := "/data/42" |}.

Definition PUT_42 (_ : Request) : M World Response :=
  PUT_data spec_crud 42 {| new_name := "a"; new_email := "a@x.com"; new_message := "m" |}.

(** A fresh process over an empty table that can be reached. *)
Definition fresh_process : Process :=
  {| registry := empty_registry;
     world := {| clock := 0; db := {| table := []; execute := λ _, Return tt |} |} |}.

Example route_template_of_item :
  route_template PUT_42_request = Some "/data/{item_id}"
  ∧ route_template {| method := "GET"; url_path := "/data" |} = Some "/data"
  ∧ route_template {| method := "GET"; url_path := "/nowhere" |} = None.
Proof. by vm_compute. Qed.

(** C2 as the spec words it fails at [PUT /data/42]: the route of the
    request is [/data/{item_id}], and the counter child labelled with that
    template has not moved after the request. *)
Lemma route_template_label_counterexample :
  ¬ (∀ request call_next p response p' template,
       metrics_middleware request call_next p = (Return response, p') →
       route_template request = Some template →
       counter_value (registry p') (method request, template, status_code response)
       = S (counter_value (registry p) (method request, template, status_code response))).
Proof.
  intros H.
  specialize (H PUT_42_request PUT_42 fresh_process _ _ "/data/{item_id}" eq_refl eq_refl).
  vm_compute in H. discriminate H.
Qed.

(** C2, amended: when the application below returns a response, the one
    counter child that grows (by one) and the one histogram child that
    gets the latency are those labelled with the request method, the raw
    request path and the status code of the response; no other child
    changes. *)
Theorem counter_and_histogram_labelled_by_raw_path
    request call_next p response w' :
  call_next request (world p) = (Return response, w') →
  let k := (method request, url_path request, status_code response) in
  let run := metrics_middleware request call_next p in
  fst run = Return response
  ∧ counter_value (registry (snd run)) k = S (counter_value (registry p) k)
  ∧ observations (registry (snd run)) k
    = observations (registry p) k ++ [(clock w' - clock (world p))%float]
  ∧ ∀ k', k' ≠ k →
      counter_value (registry (snd run)) k' = counter_value (registry p) k'
      ∧ observations (registry (snd run)) k' = observations (registry p) k'.
Proof.
  intros Hnext k run. subst run.
  rewrite (metrics_middleware_returns _ _ _ _ _ Hnext). cbn.
  unfold counter_value, observations; cbn. fold k.
  rewrite !lookup_insert_eq. cbn. repeat split.
  - by rewrite lookup_insert_ne.
  - by rewrite lookup_insert_ne.
Qed.

Lemma counter_and_histogram_labelled_by_raw_path_witness :
  PUT_42 PUT_42_request (world fresh_process)
  = (Return {| status_code := 404; content := JObj [("detail", JStr "Item not found")] |},
     world fresh_process)
  ∧ counter_value
      (registry (snd (metrics_middleware PUT_42_request PUT_42 fresh_process)))
      ("PUT", "/data/42", 404%Z) = 1.
Proof.
  split; [reflexivity |].
  exact (proj1 (proj2 (counter_and_histogram_labelled_by_raw_path
                         PUT_42_request PUT_42 fresh_process _ _ eq_refl))).
Defined.

(** ** The histogram as it is created *)

(** C7: the latency histogram is created with the bucket boundaries
    0.1, 0.3, 0.5, 1, 3, 5 (ascending) and with three labels, which hold
    the method, the route and the status. *)
Theorem REQUEST_LATENCY_buckets_and_labels :
  buckets REQUEST_LATENCY = [0.1; 0.3; 0.5; 1; 3; 5]%float
  ∧ histogram_labelnames REQUEST_LATENCY = ["method"; "endpoint"; "http_status"]
  ∧ StronglySorted (λ a b, PrimFloat.ltb a b = true) (buckets REQUEST_LATENCY).
Proof.
  repeat split. cbn. repeat (constructor; [| repeat constructor]). constructor.
Qed.

(** ** The health endpoint *)

Definition ok_body : json :=
  JObj [("status", JStr "ok"); ("database", JStr "reachable")].

Definition error_body (detail : string) : json :=
  JObj [("status", JStr "error"); ("database", JStr "unreachable");
        ("detail", JStr detail)].

(** C4: [GET /health] answers 200 with {status: ok, database: reachable}
    when the liveness query succeeds, answers 500 with {status: error,
    database: unreachable, detail: the error message} when the query
    raises, and in every case returns a response: no exception leaves the
    endpoint. *)
Theorem health_check_never_raises :
  ∀ w : World,
    (execute (db w) "SELECT 1" = Return tt →
       GET_health w = (Return (JSONResponse 200 ok_body), w))
    ∧ (∀ e, execute (db w) "SELECT 1" = Raise e →
       GET_health w = (Return (JSONResponse 500 (error_body (str e))), w))
    ∧ ∃ response, fst (GET_health w) = Return response.
Proof.
  intros [c [t ex]].
  unfold GET_health, respond_either, health_check, zoom, try_except, db_execute,
    mbind, M_bind, mret, M_ret; cbn.
  repeat split.
  - intros ->. reflexivity.
  - intros e ->. reflexivity.
  - destruct (ex "SELECT 1") as [[] | e]; eauto.
Qed.

Definition database_down : World :=
  {| clock := 0; db := {| table := []; execute := λ _, Raise OperationalError |} |}.

Lemma health_check_never_raises_witness :
  execute (db database_down) "SELECT 1" = Raise OperationalError
  ∧ GET_health database_down
    = (Return (JSONResponse 500 (error_body "connection refused")), database_down).
Proof.
  split; [reflexivity |].
  exact (proj1 (proj2 (health_check_never_raises database_down)) _ eq_refl).
Defined.

(** ** Update and delete by id *)

Lemma find_has_id_None item_id (rows : list UserData) :
  (∀ r, r ∈ rows → id r ≠ item_id) → find (has_id item_id) rows = None.
Proof.
  induction rows as [| a rows IH]; intros Habsent; [reflexivity |].
  cbn. unfold has_id at 1. rewrite bool_decide_eq_false_2.
  - apply IH. intros r Hr. apply Habsent. by right.
  - apply Habsent. by left.
Qed.

Lemma find_has_id_Some old (rows : list UserData) :
  NoDup (id <$> rows) → old ∈ rows → find (has_id (id old)) rows = Some old.
Proof.
  induction rows as [| a rows IH]; intros Hnodup Hin.
  - by apply elem_of_nil in Hin.
  - rewrite fmap_cons in Hnodup. apply NoDup_cons in Hnodup as [Hfresh Hnodup].
    cbn. unfold has_id at 1. apply elem_of_cons in Hin as [-> | Hin].
    + by rewrite bool_decide_eq_true_2.
    + rewrite bool_decide_eq_false_2; [by apply IH |].
      intros Heq. apply Hfresh. rewrite Heq. by apply list_elem_of_fmap_2.
Qed.

Definition not_found : Response :=
  JSONResponse 404 (JObj [("detail", JStr "Item not found")]).

(** What the two endpoints make of the answer of [crud], whatever [crud]
    is: no record gives 404, a record gives 200 with that record, and an
    exception of the store goes up. *)
Definition answer_for (w : World) (found : result (option UserData) * Session)
    : result Response * World :=
  match found with
  | (Return None, s') => (Return not_found, {| clock := clock w; db := s' |})
  | (Return (Some row), s') =>
      (Return (JSONResponse 200 (UserData_json row)), {| clock := clock w; db := s' |})
  | (Raise (HTTPException c d), s') =>
      (Return (JSONResponse c (JObj [("detail", JStr d)])), {| clock := clock w; db := s' |})
  | (Raise e, s') => (Raise e, {| clock := clock w; db := s' |})
  end.

Lemma PUT_data_answer crud item_id data w :
  PUT_data crud item_id data w
  = answer_for w (update_user_data crud item_id data (db w)).
Proof.
  unfold PUT_data, respond, update_data, zoom, try_except, mbind, M_bind, answer_for.
  by destruct (update_user_data crud item_id data (db w)) as [[[row |] | [c d | c m]] s'].
Qed.

Lemma DELETE_data_answer crud item_id w :
  DELETE_data crud item_id w = answer_for w (delete_user_data crud item_id (db w)).
Proof.
  unfold DELETE_data, respond, delete_data, zoom, try_except, mbind, M_bind, answer_for.
  by destruct (delete_user_data crud item_id (db w)) as [[[row |] | [c d | c m]] s'].
Qed.

(** C5: for an id that no record has, [PUT /data/{id}] and
    [DELETE /data/{id}] both answer 404 (a response, not an exception that
    would end as a 500) and leave the store as it was; for the id of an
    existing record they answer 200 with the updated record (the id kept,
    every other field from the body) and with the deleted record. *)
Theorem update_and_delete_answer_404_or_200 :
  ∀ (w : World) (item_id : Z) (data : UserDataCreate),
    ((∀ r, r ∈ table (db w) → id r ≠ item_id) →
       PUT_data spec_crud item_id data w = (Return not_found, w)
       ∧ DELETE_data spec_crud item_id w = (Return not_found, w))
    ∧ (∀ old, NoDup (id <$> table (db w)) → old ∈ table (db w) → id old = item_id →
       fst (PUT_data spec_crud item_id data w)
       = Return (JSONResponse 200
           (UserData_json {| id := item_id; name := new_name data;
                             email := new_email data; message := new_message data |}))
       ∧ fst (DELETE_data spec_crud item_id w)
         = Return (JSONResponse 200 (UserData_json old))).
Proof.
  intros [c [rows ex]] item_id data.
  rewrite PUT_data_answer, DELETE_data_answer. cbn.
  unfold spec_update_user_data, spec_delete_user_data; cbn. split.
  - intros Habsent. apply find_has_id_None in Habsent.
    rewrite Habsent. by split.
  - intros old Hnodup Hin <-.
    rewrite (find_has_id_Some old rows Hnodup Hin). by split.
Qed.

Definition one_record : World :=
  {| clock := 0;
     db := {| table := [{| id := 1; name := "a"; email := "a@x.com"; message := "m" |}];
              execute := λ _, Return tt |} |}.

Lemma update_and_delete_answer_404_or_200_witness :
  (∀ r, r ∈ table (db one_record) → id r ≠ 7%Z)
  ∧ PUT_data spec_crud 7 {| new_name := "b"; new_email := "b@x.com"; new_message := "n" |}
      one_record
    = (Return not_found, one_record)
  ∧ fst (DELETE_data spec_crud 1 one_record)
    = Return (JSONResponse 200
        (UserData_json {| id := 1; name := "a"; email := "a@x.com"; message := "m" |})).
Proof.
  assert (Habsent : ∀ r, r ∈ table (db one_record) → id r ≠ 7%Z).
  { intros r Hr. apply list_elem_of_singleton in Hr as ->. cbn. lia. }
  split; [exact Habsent |]. split.
  - exact (proj1 (proj1 (update_and_delete_answer_404_or_200 one_record 7
                           {| new_name := "b"; new_email := "b@x.com"; new_message := "n" |})
                    Habsent)).
  - refine (proj2 (proj2 (update_and_delete_answer_404_or_200 one_record 1
                            {| new_name := "b"; new_email := "b@x.com"; new_message := "n" |})
                     {| id := 1; name := "a"; email := "a@x.com"; message := "m" |}
                     _ _ eq_refl)).
    + cbn. apply NoDup_singleton.
    + cbn. apply list_elem_of_singleton. reflexivity.
Defined.

(** ** Listing *)

(** C10: [GET /data] hands [skip] and [limit] to the store query as they
    came, whatever integers they are (negative ones included): nothing is
    rejected and nothing is clamped, the endpoint answers whatever the
    query returns; an absent parameter is 0 for [skip] and 100 for
    [limit]. This holds for every implementation of the query. *)
Theorem read_data_passes_skip_and_limit_unchanged :
  ∀ (crud : Crud) (skip limit : Z) (w : World),
    read_data crud (Some skip) (Some limit) = get_user_data crud skip limit
    ∧ read_data crud None None = get_user_data crud 0 100
    ∧ read_data crud (Some skip) None = get_user_data crud skip 100
    ∧ read_data crud None (Some limit) = get_user_data crud 0 limit
    ∧ ∀ rows s',
        get_user_data crud skip limit (db w) = (Return rows, s') →
        GET_data crud (Some skip) (Some limit) w
        = (Return (JSONResponse 200 (JArr (UserData_json <$> rows))),
           {| clock := clock w; db := s' |}).
Proof.
  intros crud skip limit w. repeat split.
  intros rows s' Hquery.
  unfold GET_data, respond, read_data, zoom, try_except, mbind, M_bind; cbn.
  rewrite Hquery. reflexivity.
Qed.

(** A query that answers with its own arguments. *)
Definition echo_crud : Crud :=
  {| get_user_data := λ skip limit,
       mret [{| id := skip; name := pretty limit; email := ""; message := "" |}];
     update_user_data := λ _ _, mret None;
     delete_user_data := λ _, mret None |}.

Lemma read_data_passes_skip_and_limit_unchanged_witness :
  get_user_data echo_crud (-5) (-1) (db one_record)
  = (Return [{| id := -5; name := "-1"; email := ""; message := "" |}], db one_record)
  ∧ fst (GET_data echo_crud (Some (-5)%Z) (Some (-1)%Z) one_record)
    = Return (JSONResponse 200
        (JArr [UserData_json {| id := -5; name := "-1"; email := ""; message := "" |}])).
Proof.
  split; [reflexivity |].
  exact (f_equal fst
           (proj2 (proj2 (proj2 (proj2
              (read_data_passes_skip_and_limit_unchanged echo_crud (-5) (-1) one_record))))
              _ _ eq_refl)).
Defined.

End MainFacts.

(* ================================================================== *)
(** * Facts about tests/loadtest.py                                    *)
(* ================================================================== *)
Module LoadtestFacts.
Import Python Loadtest.

(** ** Statements only ever add to the log *)

(** [m] leaves what was logged before it in place and adds the same events
    and ends the same way whatever was logged before. *)
Definition appends {A} (m : M (list Event) A) : Prop :=
  ∀ log, m log = (fst (m []), log ++ snd (m [])).

Lemma appends_mret {A} (a : A) : appends (mret a).
Proof. intros log. cbn. by rewrite app_nil_r. Qed.

Lemma appends_lift {A} (r : result A) : appends (lift r).
Proof. intros log. cbn. by rewrite app_nil_r. Qed.

Lemma appends_emit (e : Event) : appends (emit e).
Proof. intros log. reflexivity. Qed.

Lemma appends_bind {A B} (m : M (list Event) A) (f : A → M (list Event) B) :
  appends m → (∀ a, appends (f a)) → appends (m ≫= f).
Proof.
  intros Hm Hf log. unfold mbind, M_bind. rewrite (Hm log).
  destruct (m []) as [[a | e] l1]; cbn; [| reflexivity].
  rewrite (Hf a (log ++ l1)), (Hf a l1). cbn. by rewrite app_assoc.
Qed.

Lemma appends_try_except {A} (body : M (list Event) A) (handler : exn → M (list Event) A) :
  appends body → (∀ e, appends (handler e)) → appends (try_except body handler).
Proof.
  intros Hb Hh log. unfold try_except. rewrite (Hb log).
  destruct (body []) as [[a | e] l1]; cbn; [reflexivity |].
  rewrite (Hh e (log ++ l1)), (Hh e l1). cbn. by rewrite app_assoc.
Qed.

Lemma appends_when (c : bool) (body : M (list Event) unit) :
  appends body → appends (when c body).
Proof. destruct c; cbn; [done | intros _; apply appends_mret]. Qed.

Lemma appends_request env i r : appends (request env i r).
Proof. apply appends_bind; [apply appends_emit | intros; apply appends_lift]. Qed.

Create HintDb appends.
#[local] Hint Resolve appends_mret appends_lift appends_emit appends_request : appends.

(** Goes through a statement of the worker piece by piece. *)
Ltac appends_step :=
  match goal with
  | |- appends (mbind _ _) => apply appends_bind; [| intros ?]
  | |- appends (try_except _ _) => apply appends_try_except; [| intros ?]
  | |- appends (when _ _) => apply appends_when
  | |- appends (if ?c then _ else _) => destruct c
  | |- appends _ => solve [auto with appends]
  end.

Lemma appends_operation env name i op : appends (operation env name i op).
Proof.
  destruct op; unfold operation, client_get, client_post, client_put, client_delete;
    repeat appends_step.
Qed.

Lemma appends_scrape cfg env i : appends (scrape cfg env i).
Proof. unfold scrape, client_get; repeat appends_step. Qed.

Lemma appends_iteration cfg env name i : appends (iteration cfg env name i).
Proof.
  unfold iteration, print, asyncio_sleep.
  apply appends_bind; [| intros; apply appends_emit].
  apply appends_try_except; [| intros; apply appends_emit].
  apply appends_bind; [apply appends_operation | intros; apply appends_scrape].
Qed.

(** ** An iteration never raises *)

(** The body of the [try] of iteration [i]. *)
Definition attempt (cfg : Config) (env : Env) (name : string) (i : nat)
    : M (list Event) unit :=
  operation env name i (random_choices env i) ;; scrape cfg env i.

Definition error_line (env : Env) (name : string) (i : nat) (e : exn) : string :=
  "[" +:+ name +:+ "] error during " +:+ op_name (random_choices env i) +:+ ": " +:+ str e.

Lemma iteration_after_attempt cfg env name i :
  iteration_events cfg env name i
  = snd (attempt cfg env name i [])
    ++ match fst (attempt cfg env name i []) with
       | Return _ => [Slept (random_uniform env i)]
       | Raise e => [Printed (error_line env name i e); Slept (random_uniform env i)]
       end.
Proof.
  unfold iteration_events, iteration. fold (attempt cfg env name i).
  unfold mbind at 1, M_bind, try_except.
  destruct (attempt cfg env name i []) as [[[] | e] l1]; cbn.
  - reflexivity.
  - unfold error_line. by rewrite <- app_assoc.
Qed.

Lemma iteration_returns cfg env name i log :
  iteration cfg env name i log = (Return tt, log ++ iteration_events cfg env name i).
Proof.
  rewrite (appends_iteration cfg env name i log). f_equal.
  unfold iteration. fold (attempt cfg env name i).
  unfold mbind at 1, M_bind, try_except.
  by destruct (attempt cfg env name i []) as [[[] | e] l1].
Qed.

Lemma for_each_iteration cfg env name (indices : list nat) log :
  for_each indices (iteration cfg env name) log
  = (Return tt, log ++ concat (iteration_events cfg env name <$> indices)).
Proof.
  revert log. induction indices as [| i indices IH]; intros log; cbn.
  - by rewrite app_nil_r.
  - unfold mbind, M_bind. rewrite iteration_returns, IH. by rewrite app_assoc.
Qed.

(** The events of a whole worker. *)
Definition worker_events (cfg : Config) (env : Env) (name : string) : list Event :=
  concat (iteration_events cfg env name <$> seq 0 (REQUESTS_PER_CLIENT cfg))
  ++ [Printed ("[" +:+ name +:+ "] done")].

Lemma worker_returns cfg env name :
  worker cfg env name [] = (Return tt, worker_events cfg env name).
Proof.
  unfold worker, mbind, M_bind. rewrite for_each_iteration. reflexivity.
Qed.

(** ** The driver *)

Definition client (i : nat) : string := "client" +:+ pretty i.

Lemma gather_workers cfg (envs : nat → Env) (indices : list nat) d :
  asyncio_gather ((λ i, worker cfg (envs i) (client i)) <$> indices) d
  = (Return tt,
     {| tasks := tasks d ++ ((λ i, (Return tt, worker_events cfg (envs i) (client i)))
                              <$> indices);
        output := output d |}).
Proof.
  unfold asyncio_gather.
  set (ended := _ <$> (_ <$> indices)).
  assert (Hended : ended
                   = (λ i, (Return tt, worker_events cfg (envs i) (client i))) <$> indices).
  { subst ended. induction indices as [| i indices IH]; [reflexivity |].
    cbn. by rewrite worker_returns, IH. }
  clearbody ended. subst ended.
  assert (Hnone : list_find (λ t : result unit * list Event, returned (fst t) = false)
                    ((λ i, (Return tt, worker_events cfg (envs i) (client i))) <$> indices)
                  = None).
  { apply list_find_None, Forall_fmap, Forall_forall. intros i _. cbn. discriminate. }
  by rewrite Hnone.
Qed.

(** C6: whatever the requests of an iteration do, the iteration ends
    normally; when the operation or its scrape raises, the exception is
    caught in that iteration and a line naming the worker, the operation
    and the error is printed before the pause. So every one of the N
    workers goes through all M iterations and prints its last line, and
    the driver, having awaited the N workers, returns and reports the time
    between its two clock readings. *)
Theorem every_worker_runs_all_iterations :
  ∀ (cfg : Config) (envs : nat → Env) (time_time : nat → float),
    let run := main cfg envs time_time {| tasks := []; output := [] |} in
    (∀ env name i log,
       iteration cfg env name i log = (Return tt, log ++ iteration_events cfg env name i))
    ∧ (∀ env name i e,
         fst (attempt cfg env name i []) = Raise e →
         iteration_events cfg env name i
         = snd (attempt cfg env name i [])
           ++ [Printed (error_line env name i e); Slept (random_uniform env i)])
    ∧ (∀ env name,
         worker cfg env name []
         = (Return tt,
            concat (iteration_events cfg env name <$> seq 0 (REQUESTS_PER_CLIENT cfg))
            ++ [Printed ("[" +:+ name +:+ "] done")]))
    ∧ fst run = Return tt
    ∧ tasks (snd run)
      = (λ i, (Return tt, worker_events cfg (envs i) (client i))) <$> seq 0 (CONCURRENCY cfg)
    ∧ output (snd run) = [Reported (PrimFloat.sub (time_time 1) (time_time 0))].
Proof.
  intros cfg envs time_time run. repeat split.
  - intros. apply iteration_returns.
  - intros env name i e Hraise. rewrite iteration_after_attempt. by rewrite Hraise.
  - intros. apply worker_returns.
  - subst run. unfold main, mbind, M_bind. fold client.
    by rewrite (gather_workers cfg envs).
  - subst run. unfold main, mbind, M_bind. fold client.
    by rewrite (gather_workers cfg envs).
  - subst run. unfold main, mbind, M_bind. fold client.
    by rewrite (gather_workers cfg envs).
Qed.

(** Three workers of five operations each; every request of every worker
    fails to connect. *)
Definition small_config : Config :=
  {| API_URL := "http://localhost:8000"; CONCURRENCY := 3; REQUESTS_PER_CLIENT := 5;
     OP_WEIGHTS := OP_WEIGHTS config; METRICS_EVERY := 10 |}.

Definition ConnectError : exn := Exception "httpx.ConnectError" "All connection attempts failed".

Definition offline : Env :=
  {| random_choices := λ _, read;
     send := λ _ _, Raise ConnectError;
     randbelow := λ _ _, 0;
     random_uniform := λ _, 0.01%float |}.

Definition sleeps (events : list Event) : nat :=
  length (List.filter (λ e, match e with Slept _ => true | _ => false end) events).

(** With no request getting through, the three workers still make their
    five passes each, and the driver reports. *)
Example three_workers_five_operations :
  let run := main small_config (λ _, offline) (λ k, match k with 0 => 1 | _ => 3.5 end)%float
               {| tasks := []; output := [] |} in
  fst run = Return tt
  ∧ (λ t, (fst t, sleeps (snd t))) <$> tasks (snd run)
    = [(Return tt, 5); (Return tt, 5); (Return tt, 5)]
  ∧ output (snd run) = [Reported 2.5%float].
Proof. by vm_compute. Qed.

Lemma every_worker_runs_all_iterations_witness :
  fst (attempt small_config offline "client0" 0 []) = Raise ConnectError
  ∧ iteration_events small_config offline "client0" 0
    = [Sent {| verb := GET; url := url_data; json_body := None |};
       Printed "[client0] error during read: All connection attempts failed";
       Slept 0.01%float].
Proof.
  split; [reflexivity |].
  exact (proj1 (proj2 (every_worker_runs_all_iterations small_config (λ _, offline) (λ _, 0%float)))
           offline "client0" 0 ConnectError eq_refl).
Defined.

(** ** The scrape *)

(** Unfolds a statement of the worker down to what the environment
    answers, and splits on each answer. *)
Ltac run_worker :=
  unfold operation, scrape, client_get, client_post, client_put, client_delete,
    request, lift, emit, modify, when, mbind, M_bind, mret, M_ret;
  cbn;
  repeat (case_match; simplify_eq; cbn in *).

Lemma scrapes_app (l1 l2 : list Event) : scrapes (l1 ++ l2) = scrapes l1 + scrapes l2.
Proof. unfold scrapes. by rewrite List.filter_app, length_app. Qed.

Lemma operation_never_scrapes env name i op :
  scrapes (snd (operation env name i op [])) = 0.
Proof. destruct op; run_worker; reflexivity. Qed.

Lemma scrape_events cfg env i :
  METRICS_EVERY cfg ≠ 0 →
  scrapes (snd (scrape cfg env i []))
  = if bool_decide (i mod METRICS_EVERY cfg = 0) then 1 else 0.
Proof.
  intros HK. unfold scrape, divides. destruct (METRICS_EVERY cfg) as [| k]; [done |].
  run_worker; reflexivity.
Qed.

Lemma attempt_events cfg env name i :
  snd (attempt cfg env name i [])
  = snd (operation env name i (random_choices env i) [])
    ++ if returned (fst (operation env name i (random_choices env i) []))
       then snd (scrape cfg env i [])
       else [].
Proof.
  unfold attempt, mbind, M_bind.
  destruct (operation env name i (random_choices env i) []) as [[[] | e] l1]; cbn.
  - by rewrite (appends_scrape cfg env i l1).
  - by rewrite app_nil_r.
Qed.

(** C8 as the spec words it fails at the first iteration of a worker
    whose list request cannot connect: 0 is a multiple of 10, and no
    scrape is sent. *)
Lemma scrape_on_every_Kth_iteration_counterexample :
  ¬ (∀ env name i,
       scrapes (iteration_events config env name i)
       = if bool_decide (i mod METRICS_EVERY config = 0) then 1 else 0).
Proof.
  intros H. specialize (H offline "client0" 0). vm_compute in H. discriminate H.
Qed.

(** C8, amended: the interval K is 10 in the file, and for every interval
    K > 0 a worker sends exactly one [GET /metrics] in each iteration whose
    index (counted from 0) is a multiple of K and whose operation ended
    without raising, and none in any other iteration. *)
Theorem one_scrape_per_Kth_iteration_whose_operation_returned :
  METRICS_EVERY config = 10
  ∧ ∀ cfg env name i,
      METRICS_EVERY cfg ≠ 0 →
      scrapes (iteration_events cfg env name i)
      = if bool_decide (i mod METRICS_EVERY cfg = 0)
           && returned (fst (operation env name i (random_choices env i) []))
        then 1 else 0.
Proof.
  split; [reflexivity |]. intros cfg env name i HK.
  rewrite iteration_after_attempt, scrapes_app, attempt_events, scrapes_app.
  rewrite operation_never_scrapes.
  assert (Hrest : scrapes
            match fst (attempt cfg env name i []) with
            | Return _ => [Slept (random_uniform env i)]
            | Raise e => [Printed (error_line env name i e); Slept (random_uniform env i)]
            end = 0) by (by destruct (fst (attempt cfg env name i []))).
  rewrite Hrest.
  destruct (returned (fst (operation env name i (random_choices env i) []))).
  - rewrite (scrape_events cfg env i HK). rewrite andb_true_r.
    destruct (bool_decide (i mod METRICS_EVERY cfg = 0)); reflexivity.
  - by rewrite andb_false_r.
Qed.

(** A service that answers every request with an empty list. *)
Definition empty_service : Env :=
  {| random_choices := λ _, read;
     send := λ _ _, Return {| status_code := 200; json_ := Return (JArr []) |};
     randbelow := λ _ _, 0;
     random_uniform := λ _, 0.01%float |}.

Lemma one_scrape_per_Kth_iteration_whose_operation_returned_witness :
  METRICS_EVERY config ≠ 0
  ∧ scrapes (iteration_events config empty_service "client0" 20) = 1
  ∧ scrapes (iteration_events config empty_service "client0" 21) = 0
  ∧ scrapes (iteration_events config offline "client0" 20) = 0.
Proof.
  assert (HK : METRICS_EVERY config ≠ 0) by (cbn; lia).
  split; [exact HK |]. split; [| split].
  - exact (proj2 one_scrape_per_Kth_iteration_whose_operation_returned
             config empty_service "client0" 20 HK).
  - exact (proj2 one_scrape_per_Kth_iteration_whose_operation_returned
             config empty_service "client0" 21 HK).
  - exact (proj2 one_scrape_per_Kth_iteration_whose_operation_returned
             config offline "client0" 20 HK).
Defined.

(** ** Update and delete iterations *)

Definition list_request : HttpRequest :=
  {| verb := GET; url := url_data; json_body := None |}.

(** The record shape the service sends. *)
Definition record_json (item_id : json) (name : string) (email message : json) : json :=
  JObj [("id", item_id); ("name", JStr name); ("email", email); ("message", message)].

(** The request that updates or deletes the record picked. *)
Definition write_request (op : Op) (item_id : json) (name : string) (email : json)
    : HttpRequest :=
  match op with
  | update =>
      {| verb := PUT; url := url_data_item item_id;
         json_body := Some (JObj [("name", JStr (name +:+ "_upd")); ("email", email);
                                  ("message", JStr "updated")]) |}
  | _ => {| verb := DELETE; url := url_data_item item_id; json_body := None |}
  end.

Definition write_verb (op : Op) : Verb :=
  match op with update => PUT | _ => DELETE end.

Lemma fetch_comes_first env name i op :
  op = update ∨ op = delete →
  ∃ rest, snd (operation env name i op []) = Sent list_request :: rest.
Proof. intros [-> | ->]; run_worker; eauto. Qed.

Lemma nothing_written_for_empty_list env name i op r items :
  op = update ∨ op = delete →
  send env i list_request = Return r →
  json_ r = Return items →
  truthy items = false →
  operation env name i op [] = (Return tt, [Sent list_request]).
Proof.
  intros [-> | ->] Hsend Hjson Hfalsy;
    unfold operation, client_get, request, lift, emit, modify, mbind, M_bind; cbn;
    fold list_request; rewrite Hsend; cbn; rewrite Hjson; cbn; by rewrite Hfalsy.
Qed.

Lemma write_goes_to_drawn_element env name i op r items e :
  op = update ∨ op = delete →
  send env i list_request = Return r →
  json_ r = Return (JArr items) →
  e ∈ snd (operation env name i op []) →
  is_write e = true →
  ∃ item item_id body,
    items !! randbelow env i (length items) = Some item
    ∧ subscript item "id" = Return item_id
    ∧ e = Sent {| verb := write_verb op; url := url_data_item item_id; json_body := body |}.
Proof.
  intros [-> | ->] Hsend Hjson;
    unfold operation, client_get, client_put, client_delete, request, lift, emit,
      modify, mbind, M_bind; cbn;
    fold list_request; rewrite Hsend; cbn; rewrite Hjson; cbn;
    repeat (case_match; simplify_eq; cbn in * );
    intros Hin Hwrite;
    repeat match goal with
           | H : _ ∈ _ :: _ |- _ => apply elem_of_cons in H as [-> | H]
           | H : _ ∈ [] |- _ => by apply elem_of_nil in H
           end;
    try discriminate; eauto 10.
Qed.

Lemma record_is_written env name i op r items item_id name' email message :
  op = update ∨ op = delete →
  send env i list_request = Return r →
  json_ r = Return (JArr items) →
  items !! randbelow env i (length items) = Some (record_json item_id name' email message) →
  snd (operation env name i op [])
  = [Sent list_request; Sent (write_request op item_id name' email)].
Proof.
  intros [-> | ->] Hsend Hjson Hpick;
    unfold operation, client_get, client_put, client_delete, request, lift, emit,
      modify, mbind, M_bind; cbn;
    fold list_request; rewrite Hsend; cbn; rewrite Hjson; cbn;
    (destruct items as [| first items]; [done |]); cbn; cbn in Hpick; rewrite Hpick; cbn;
    by case_match.
Qed.

End LoadtestFacts.

(* ================================================================== *)
(** * The worker against the service                                   *)
(* ================================================================== *)
Module System.
Import Python.

(** What [r.json()] is when the service of [app/main.py] answers the
    worker's [client.get("/data")] in the world [w]: the request has no
    query string, so [skip] and [limit] are absent. *)
Definition fetched_items (w : Main.World) : result json :=
  match fst (Main.GET_data Main.spec_crud None None w) with
  | Return response => Return (Main.content response)
  | Raise e => Raise e
  end.

(** A store of [n] records with the ids 1 to [n]. *)
Definition store_of (n : nat) : Main.World :=
  {| Main.clock := 0;
     Main.db :=
       {| Main.table :=
            (λ k, {| Main.id := Z.of_nat k; Main.name := "user"; Main.email := "u@x.com";
                     Main.message := "m" |}) <$> seq 1 n;
          Main.execute := λ _, Return tt |} |}.

End System.

Module SystemFacts.
Import Python Loadtest LoadtestFacts System.

Lemma fetched_items_first_page (w : Main.World) :
  fetched_items w
  = Return (JArr (Main.UserData_json <$> take 100 (Main.table (Main.db w)))).
Proof. destruct w as [c [rows ex]]. reflexivity. Qed.

(** C9 as the spec words it fails on a store of 101 records: the list the
    worker fetches is not the list of all records (it stops after the
    first 100). *)
Lemma fetched_list_is_full_counterexample :
  ¬ (∀ w : Main.World,
       fetched_items w = Return (JArr (Main.UserData_json <$> Main.table (Main.db w)))).
Proof.
  intros H. specialize (H (store_of 101)).
  rewrite fetched_items_first_page in H.
  apply (f_equal (λ fetched, match fetched with
                             | Return (JArr items) => length items
                             | _ => 0
                             end)) in H.
  vm_compute in H. discriminate H.
Qed.

(** C9, amended: in an iteration whose operation is update or delete the
    worker first sends [GET /data] without parameters, which the service
    answers with its default page (the first 100 records at most). If the
    value fetched is empty nothing more is sent by the operation. If it is
    a list, any update or delete request goes to the id of the element at
    the index drawn below the length of the list, so each position is
    picked by exactly its own index; and for an element that is a record,
    that request is sent. *)
Theorem update_and_delete_pick_from_fetched_page :
  ∀ (env : Env) (name : string) (i : nat) (op : Op),
    op = update ∨ op = delete →
    (∃ rest, snd (operation env name i op []) = Sent list_request :: rest)
    ∧ (∀ w, fetched_items w
            = Return (JArr (Main.UserData_json <$> take 100 (Main.table (Main.db w)))))
    ∧ (∀ r items,
         send env i list_request = Return r →
         json_ r = Return items →
         truthy items = false →
         operation env name i op [] = (Return tt, [Sent list_request]))
    ∧ (∀ r items e,
         send env i list_request = Return r →
         json_ r = Return (JArr items) →
         e ∈ snd (operation env name i op []) →
         is_write e = true →
         ∃ item item_id body,
           items !! randbelow env i (length items) = Some item
           ∧ subscript item "id" = Return item_id
           ∧ e = Sent {| verb := write_verb op; url := url_data_item item_id;
                         json_body := body |})
    ∧ (∀ r items item_id name' email message,
         send env i list_request = Return r →
         json_ r = Return (JArr items) →
         items !! randbelow env i (length items)
         = Some (record_json item_id name' email message) →
         snd (operation env name i op [])
         = [Sent list_request; Sent (write_request op item_id name' email)]).
Proof.
  intros env name i op Hop. split; [by apply fetch_comes_first |].
  split; [apply fetched_items_first_page |].
  split; [intros; by eapply nothing_written_for_empty_list |].
  split; [intros; by eapply write_goes_to_drawn_element |].
  intros. by eapply record_is_written.
Qed.

(** A service of two records; the draw below 2 is 1. *)
Definition two_records : Env :=
  {| random_choices := λ _, delete;
     send := λ _ _,
       Return {| status_code := 200;
                 json_ := Return (JArr [record_json (JInt 1) "a" (JStr "a@x.com") (JStr "m");
                                        record_json (JInt 2) "b" (JStr "b@x.com") (JStr "m")]) |};
     randbelow := λ _ _, 1;
     random_uniform := λ _, 0.01%float |}.

Lemma update_and_delete_pick_from_fetched_page_witness :
  (delete = update ∨ delete = delete)
  ∧ snd (operation two_records "client0" 3 delete [])
    = [Sent list_request;
       Sent {| verb := DELETE; url := url_data_item (JInt 2); json_body := None |}].
Proof.
  split; [by right |].
  exact (proj2 (proj2 (proj2 (proj2
           (update_and_delete_pick_from_fetched_page two_records "client0" 3 delete
              (or_intror eq_refl)))))
           _ _ (JInt 2) "b" (JStr "b@x.com") (JStr "m") eq_refl eq_refl eq_refl).
Defined.

End SystemFacts.

(* ================================================================== *)
(** * The rest of app/main.py                                          *)
(* ================================================================== *)
Module MainRest.
Import Python Main.

(** [try: body  finally: final] *)
Definition try_finally {S A} (body : M S A) (final : M S unit) : M S A :=
  λ s, let '(r, s') := body s in
       match final s' with
       | (Return _, s'') => (r, s'')
       | (Raise e, s'') => (Raise e, s'')
       end.

(** The engine behind [SessionLocal]: the session it hands out and the
    number of sessions handed out and not closed yet. *)
Record Engine := { current : Session; open_sessions : Z }.

(** [db = SessionLocal()] *)
Definition SessionLocal : M Engine unit :=
  modify (λ e, {| current := current e; open_sessions := open_sessions e + 1 |}).

(** [db.close()] *)
Definition db_close : M Engine unit :=
  modify (λ e, {| current := current e; open_sessions := open_sessions e - 1 |}).

(** [get_db] (lines 42-47) around the endpoint that depends on it: the
    endpoint runs where the generator stands at [yield db]. *)
Definition get_db {A} (endpoint : M Session A) : M Engine A :=
  SessionLocal ;;
  try_finally
    (zoom current (λ s e, {| current := s; open_sessions := open_sessions e |}) endpoint)
    db_close.

(** [create_data] (lines 69-71); [crud.create_user_data] is an argument. *)
Definition create_data (create_user_data : UserDataCreate → M Session UserData)
    (data : UserDataCreate) : M Session UserData :=
  create_user_data data.

(** [@app.post("/data", response_model=schemas.UserData, status_code=201)] *)
Definition POST_data (create_user_data : UserDataCreate → M Session UserData)
    (data : UserDataCreate) : M World Response :=
  respond 201 UserData_json (create_data create_user_data data).

(** How the application below the middleware ends each request of a run,
    the world handed from one request to the next. *)
Fixpoint app_outcomes (call_next : Request → M World Response)
    (requests : list Request) (w : World) : list (result Response) * World :=
  match requests with
  | [] => ([], w)
  | request :: rest =>
      let '(outcome, w') := call_next request w in
      let '(others, w'') := app_outcomes call_next rest w' in
      (outcome :: others, w'')
  end.

Definition internal_server_error : Response :=
  {| status_code := 500; content := JStr "Internal Server Error" |}.

(** What the client gets for an outcome. *)
Definition sent_to_client (outcome : result Response) : Response :=
  match outcome with
  | Return response => response
  | Raise _ => internal_server_error
  end.

(** The request ended with a response that carries the labels [k]. *)
Definition ended_with (k : LabelValues) (ro : Request * result Response) : bool :=
  match ro.2 with
  | Return response => bool_decide ((method ro.1, url_path ro.1, status_code response) = k)
  | Raise _ => false
  end.

Definition raised {A} (outcome : result A) : bool := negb (returned outcome).


End MainRest.

Module MainRestFacts.
Import Python Main MainFacts MainRest.

(** ** The middleware and the outcome of the request *)

(** The middleware changes nothing about how a request ends: it returns
    the response [call_next] returned, or raises what [call_next] raised,
    and leaves the world as [call_next] left it. *)
Theorem metrics_middleware_is_transparent :
  ∀ request call_next p,
    fst (metrics_middleware request call_next p) = fst (call_next request (world p))
    ∧ world (snd (metrics_middleware request call_next p))
      = snd (call_next request (world p)).
Proof.
  intros request call_next p.
  destruct (call_next request (world p)) as [[response | e] w'] eqn:Hnext.
  - by rewrite (metrics_middleware_returns _ _ _ _ _ Hnext).
  - by rewrite (metrics_middleware_raises _ _ _ _ _ Hnext).
Qed.

Lemma serve_raises request call_next p e w' :
  call_next request (world p) = (Raise e, w') →
  serve call_next request p
  = (Return internal_server_error,
     {| registry :=
          {| request_count := request_count (registry p);
             request_latency := request_latency (registry p);
             in_progress := in_progress (registry p) + 1 |};
        world := w' |}).
Proof.
  intros Hnext. unfold serve, try_except.
  by rewrite (metrics_middleware_raises _ _ _ _ _ Hnext).
Qed.

(** ** The books after any run of requests *)

Lemma serve_all_cons call_next request requests p response p1 responses p2 :
  serve call_next request p = (Return response, p1) →
  serve_all call_next requests p1 = (Return responses, p2) →
  serve_all call_next (request :: requests) p = (Return (response :: responses), p2).
Proof.
  intros Hfirst Hrest. cbn [serve_all]. unfold mbind, M_bind.
  by rewrite Hfirst, Hrest.
Qed.

(** Whatever the handlers do, the server answers every request of a run,
    with the handler's response or with a 500 where the handler raised,
    and afterwards the gauge stands above its value before the run by the
    number of requests whose handler raised, while each counter child has
    grown by the number of requests that ended with a response carrying
    its labels. *)
Theorem serve_all_bookkeeping :
  ∀ call_next requests p,
    let outcomes := fst (app_outcomes call_next requests (world p)) in
    let run := serve_all call_next requests p in
    fst run = Return (sent_to_client <$> outcomes)
    ∧ world (snd run) = snd (app_outcomes call_next requests (world p))
    ∧ in_progress (registry (snd run))
      = (in_progress (registry p) + Z.of_nat (length (List.filter raised outcomes)))%Z
    ∧ ∀ k, counter_value (registry (snd run)) k
           = counter_value (registry p) k
             + length (List.filter (ended_with k) (zip requests outcomes)).
Proof.
  intros call_next requests.
  induction requests as [| request requests IH]; intros p; cbn zeta.
  - cbn. repeat split; [lia | intros; lia].
  - cbn [app_outcomes].
    destruct (call_next request (world p)) as [outcome w1] eqn:Hnext.
    assert (Hserve : ∃ p1,
              serve call_next request p = (Return (sent_to_client outcome), p1)
              ∧ world p1 = w1
              ∧ in_progress (registry p1)
                = (in_progress (registry p) + if raised outcome then 1 else 0)%Z
              ∧ ∀ k, counter_value (registry p1) k
                     = counter_value (registry p) k
                       + if ended_with k (request, outcome) then 1 else 0).
    { destruct outcome as [response | e].
      - eexists. split; [apply (serve_returns _ _ _ _ _ Hnext) |].
        rewrite (metrics_middleware_returns _ _ _ _ _ Hnext). cbn.
        split; [done |]. split; [lia |]. intros k.
        unfold counter_value at 1, ended_with. cbn. case_bool_decide as Hk.
        + subst k. rewrite lookup_insert_eq. cbn. lia.
        + rewrite lookup_insert_ne by done. fold (counter_value (registry p) k). lia.
      - eexists. split; [apply (serve_raises _ _ _ _ _ Hnext) |]. cbn.
        split; [done |]. split; [done |]. intros k. unfold counter_value. cbn. lia. }
    destruct Hserve as (p1 & Hserve & Hworld & Hgauge & Hcount).
    specialize (IH p1). cbn zeta in IH. rewrite Hworld in IH.
    destruct (app_outcomes call_next requests w1) as [others w2].
    destruct IH as (Hrun & Hw & Hg & Hc).
    destruct (serve_all call_next requests p1) as [[responses | e] p2] eqn:Hrest;
      cbn in Hrun; [| discriminate Hrun].
    injection Hrun as ->. cbn [fst snd] in *.
    rewrite (serve_all_cons _ _ _ _ _ _ _ _ Hserve Hrest). cbn [fst snd].
    split; [reflexivity |]. split; [done |]. split.
    + rewrite Hg, Hgauge. cbn [List.filter]. destruct (raised outcome); cbn [length]; lia.
    + intros k. rewrite Hc, Hcount. cbn [zip zip_with List.filter].
      destruct (ended_with k (request, outcome)); cbn [length]; lia.
Qed.

(** An application that answers every request with an empty 200. *)
Definition always_ok (_ : Request) : M World Response :=
  mret {| status_code := 200; content := JNull |}.

Lemma serve_all_accounting_witness :
  (∀ request w, returned (fst (always_ok request w)) = true)
  ∧ ∃ responses,
      fst (serve_all always_ok [GET_data_request; PUT_42_request; GET_data_request]
             fresh_process) = Return responses
      ∧ length responses = 3
      ∧ in_progress (registry (snd (serve_all always_ok
            [GET_data_request; PUT_42_request; GET_data_request] fresh_process))) = 0%Z
      ∧ ∀ k, counter_value (registry (snd (serve_all always_ok
                 [GET_data_request; PUT_42_request; GET_data_request] fresh_process))) k
             = counter_value (registry fresh_process) k
               + length (filter (λ rr, labels rr = k)
                           (zip [GET_data_request; PUT_42_request; GET_data_request]
                                responses)).
Proof.
  assert (Hok : ∀ request w, returned (fst (always_ok request w)) = true)
    by (intros; reflexivity).
  split; [exact Hok |].
  exact (serve_all_accounting always_ok Hok
           [GET_data_request; PUT_42_request; GET_data_request] fresh_process).
Defined.

(** ** Counter and histogram stay in step *)





(** ** The health endpoint under the middleware *)

(** A health request is always counted and never leaves the gauge raised:
    it ends with a response of status 200 when the liveness query
    succeeds and 500 when it raises, the counter child of (method, path,
    that status) grows by one, the gauge is back at its value, and the
    world is as it was. *)
Theorem health_request_is_counted :
  ∀ (request : Request) (p : Process),
    let run := metrics_middleware request (λ _, GET_health) p in
    let status :=
      if returned (execute (db (world p)) "SELECT 1") then 200%Z else 500%Z in
    (∃ body, fst run = Return (JSONResponse status body))
    ∧ world (snd run) = world p
    ∧ in_progress (registry (snd run)) = in_progress (registry p)
    ∧ counter_value (registry (snd run)) (method request, url_path request, status)
      = S (counter_value (registry p) (method request, url_path request, status)).
Proof.
  intros request [r [c [rows ex]]]. cbn zeta. cbn [world db execute].
  assert (Hhealth : ∃ body,
            GET_health {| clock := c; db := {| table := rows; execute := ex |} |}
            = (Return (JSONResponse (if returned (ex "SELECT 1") then 200 else 500) body),
               {| clock := c; db := {| table := rows; execute := ex |} |})).
  { unfold GET_health, respond_either, health_check, zoom, try_except, db_execute,
      mbind, M_bind, mret, M_ret; cbn.
    destruct (ex "SELECT 1") as [[] | e]; cbn; eauto. }
  destruct Hhealth as [body Hhealth].
  rewrite (metrics_middleware_returns request (λ _, GET_health)
             {| registry := r;
                world := {| clock := c; db := {| table := rows; execute := ex |} |} |}
             _ _ Hhealth).
  cbn. split; [eauto |]. split; [done |]. split; [lia |].
  unfold counter_value. cbn. by rewrite lookup_insert_eq.
Qed.

(** ** Update and delete over any store *)

(** Whatever implements [crud]: when it finds no record, [PUT /data/{id}]
    and [DELETE /data/{id}] answer 404 "Item not found"; when it hands back
    a record, they answer 200 with that record; and when the store itself
    fails, the failure is not turned into a 404 but leaves the endpoint as
    the exception it is. *)
Theorem update_and_delete_follow_crud :
  ∀ (crud : Crud) (item_id : Z) (data : UserDataCreate) (w : World),
    (∀ s', update_user_data crud item_id data (db w) = (Return None, s') →
       PUT_data crud item_id data w
       = (Return not_found, {| clock := clock w; db := s' |}))
    ∧ (∀ row s', update_user_data crud item_id data (db w) = (Return (Some row), s') →
       PUT_data crud item_id data w
       = (Return (JSONResponse 200 (UserData_json row)), {| clock := clock w; db := s' |}))
    ∧ (∀ cls msg s',
         update_user_data crud item_id data (db w) = (Raise (Exception cls msg), s') →
         PUT_data crud item_id data w
         = (Raise (Exception cls msg), {| clock := clock w; db := s' |}))
    ∧ (∀ s', delete_user_data crud item_id (db w) = (Return None, s') →
       DELETE_data crud item_id w
       = (Return not_found, {| clock := clock w; db := s' |}))
    ∧ (∀ row s', delete_user_data crud item_id (db w) = (Return (Some row), s') →
       DELETE_data crud item_id w
       = (Return (JSONResponse 200 (UserData_json row)), {| clock := clock w; db := s' |}))
    ∧ (∀ cls msg s',
         delete_user_data crud item_id (db w) = (Raise (Exception cls msg), s') →
         DELETE_data crud item_id w
         = (Raise (Exception cls msg), {| clock := clock w; db := s' |})).
Proof.
  intros crud item_id data w.
  rewrite PUT_data_answer, DELETE_data_answer.
  repeat split; intros; by match goal with H : _ = _ |- _ => rewrite H end.
Qed.

Lemma update_and_delete_follow_crud_witness :
  update_user_data echo_crud 3 {| new_name := "b"; new_email := "b@x.com"; new_message := "n" |}
    (db one_record) = (Return None, db one_record)
  ∧ PUT_data echo_crud 3 {| new_name := "b"; new_email := "b@x.com"; new_message := "n" |}
      one_record
    = (Return not_found, one_record)
  ∧ DELETE_data unreachable_crud 3 one_record = (Raise OperationalError, one_record).
Proof.
  split; [reflexivity |]. split.
  - exact (proj1 (update_and_delete_follow_crud echo_crud 3
                    {| new_name := "b"; new_email := "b@x.com"; new_message := "n" |}
                    one_record) _ eq_refl).
  - exact (proj2 (proj2 (proj2 (proj2 (proj2
             (update_and_delete_follow_crud unreachable_crud 3
                {| new_name := "b"; new_email := "b@x.com"; new_message := "n" |}
                one_record))))) _ _ _ eq_refl).
Defined.

(** ** The session dependency *)

(** [get_db] closes the session it opened whether the endpoint returns or
    raises: the number of open sessions is what it was before the request,
    and the endpoint ends as it would have ended on the session alone. *)
Theorem get_db_closes_the_session :
  ∀ (A : Type) (endpoint : M Session A) (e : Engine),
    fst (get_db endpoint e) = fst (endpoint (current e))
    ∧ current (snd (get_db endpoint e)) = snd (endpoint (current e))
    ∧ open_sessions (snd (get_db endpoint e)) = open_sessions e.
Proof.
  intros A endpoint e.
  unfold get_db, try_finally, zoom, SessionLocal, db_close, modify, mbind, M_bind. cbn.
  destruct (endpoint (current e)) as [[a | x] s']; cbn; repeat split; lia.
Qed.

(** ** Creating a record under the middleware *)

(** A create request whose store call returns a record is answered 201
    with that record and counted under the status 201, the gauge back at
    its value; one whose store call fails leaves the middleware as the
    store's exception, and no counter child has moved. *)
Theorem create_request_is_counted_as_201 :
  ∀ (create_user_data : UserDataCreate → M Session UserData) (data : UserDataCreate)
    (request : Request) (p : Process),
    let run := metrics_middleware request (λ _, POST_data create_user_data data) p in
    (∀ row s',
       create_user_data data (db (world p)) = (Return row, s') →
       fst run = Return (JSONResponse 201 (UserData_json row))
       ∧ counter_value (registry (snd run)) (method request, url_path request, 201%Z)
         = S (counter_value (registry p) (method request, url_path request, 201%Z))
       ∧ in_progress (registry (snd run)) = in_progress (registry p))
    ∧ (∀ cls msg s',
         create_user_data data (db (world p)) = (Raise (Exception cls msg), s') →
         fst run = Raise (Exception cls msg)
         ∧ request_count (registry (snd run)) = request_count (registry p)).
Proof.
  intros create data request p run. subst run. split.
  - intros row s' Hcreate.
    assert (Hnext : (λ _ : Request, POST_data create data) request (world p)
                    = (Return (JSONResponse 201 (UserData_json row)),
                       {| clock := clock (world p); db := s' |})).
    { unfold POST_data, respond, create_data, zoom, try_except, mbind, M_bind. cbn.
      by rewrite Hcreate. }
    rewrite (metrics_middleware_returns request _ p _ _ Hnext). cbn.
    split; [done |]. split; [| lia].
    unfold counter_value. cbn. by rewrite lookup_insert_eq.
  - intros cls msg s' Hcreate.
    assert (Hnext : (λ _ : Request, POST_data create data) request (world p)
                    = (Raise (Exception cls msg),
                       {| clock := clock (world p); db := s' |})).
    { unfold POST_data, respond, create_data, zoom, try_except, mbind, M_bind. cbn.
      by rewrite Hcreate. }
    by rewrite (metrics_middleware_raises request _ p _ _ Hnext).
Qed.

(** A store that numbers the record it is given 1. *)
Definition create_first (data : UserDataCreate) : M Session UserData :=
  mret {| id := 1; name := new_name data; email := new_email data;
          message := new_message data |}.

Lemma create_request_is_counted_as_201_witness :
  create_first {| new_name := "a"; new_email := "a@x.com"; new_message := "m" |}
    (db (world fresh_process))
  = (Return {| id := 1; name := "a"; email := "a@x.com"; message := "m" |},
     db (world fresh_process))
  ∧ counter_value
      (registry (snd (metrics_middleware {| method := "POST"; url_path := "/data" |}
                        (λ _, POST_data create_first
                                {| new_name := "a"; new_email := "a@x.com";
                                   new_message := "m" |})
                        fresh_process)))
      ("POST", "/data", 201%Z) = 1.
Proof.
  split; [reflexivity |].
  exact (proj1 (proj2 (proj1 (create_request_is_counted_as_201 create_first
                  {| new_name := "a"; new_email := "a@x.com"; new_message := "m" |}
                  {| method := "POST"; url_path := "/data" |} fresh_process)
                  _ _ eq_refl))).
Defined.

End MainRestFacts.

(* ================================================================== *)
(** * More about tests/loadtest.py                                     *)
(* ================================================================== *)
Module LoadtestRest.
Import Python Loadtest.

(** How many requests a stretch of events holds. *)
Definition sent (events : list Event) : nat :=
  length (List.filter (λ e, match e with Sent _ => true | _ => false end) events).

(** How many lines it prints. *)
Definition prints (events : list Event) : nat :=
  length (List.filter (λ e, match e with Printed _ => true | _ => false end) events).

(** The payload of lines 32-36. *)
Definition create_payload (name : string) (i : nat) : json :=
  JObj [("name", JStr ("user_" +:+ name +:+ "_" +:+ pretty i));
        ("email", JStr (name +:+ "_" +:+ pretty i +:+ "@example.com"));
        ("message", JStr "load test")].

(** No character of the string is an underscore. *)
Fixpoint underscore_free (s : string) : bool :=
  match s with
  | EmptyString => true
  | String c rest => negb (bool_decide (c = "_"%char)) && underscore_free rest
  end.

End LoadtestRest.

Module LoadtestRestFacts.
Import Python Loadtest LoadtestFacts LoadtestRest.

(** ** How many requests a worker sends *)

Lemma sent_app (l1 l2 : list Event) : sent (l1 ++ l2) = sent l1 + sent l2.
Proof. unfold sent. by rewrite List.filter_app, length_app. Qed.

Lemma sent_operation env name i op :
  1 ≤ sent (snd (operation env name i op [])) ≤ 2.
Proof. destruct op; run_worker; cbn; lia. Qed.

Lemma sent_scrape cfg env i : sent (snd (scrape cfg env i [])) ≤ 1.
Proof. unfold scrape, divides. run_worker; cbn; lia. Qed.

Lemma sent_iteration cfg env name i :
  1 ≤ sent (iteration_events cfg env name i) ≤ 3.
Proof.
  rewrite iteration_after_attempt, sent_app, attempt_events, sent_app.
  pose proof (sent_operation env name i (random_choices env i)).
  pose proof (sent_scrape cfg env i).
  assert (sent match fst (attempt cfg env name i []) with
               | Return _ => [Slept (random_uniform env i)]
               | Raise e => [Printed (error_line env name i e); Slept (random_uniform env i)]
               end = 0) by (by destruct (fst (attempt cfg env name i []))).
  destruct (returned (fst (operation env name i (random_choices env i) []))); cbn; lia.
Qed.

(** A worker sends at least one request in every iteration and at most
    three (two for the operation, one for the scrape), whatever the
    answers: between M and 3M requests over its M iterations. *)
Theorem worker_sends_between_M_and_3M_requests :
  ∀ cfg env name,
    (∀ i, 1 ≤ sent (iteration_events cfg env name i) ≤ 3)
    ∧ REQUESTS_PER_CLIENT cfg ≤ sent (worker_events cfg env name)
      ≤ 3 * REQUESTS_PER_CLIENT cfg.
Proof.
  intros cfg env name. split; [intros; apply sent_iteration |].
  unfold worker_events. rewrite sent_app.
  change (sent [Printed ("[" +:+ name +:+ "] done")]) with 0.
  assert (Hsum : ∀ indices : list nat,
            length indices
            ≤ sent (concat (iteration_events cfg env name <$> indices))
            ≤ 3 * length indices).
  { induction indices as [| i indices IH]; [cbn; lia |].
    rewrite fmap_cons. cbn [concat length]. rewrite sent_app.
    pose proof (sent_iteration cfg env name i). lia. }
  specialize (Hsum (seq 0 (REQUESTS_PER_CLIENT cfg))).
  rewrite length_seq in Hsum. lia.
Qed.

(** ** Pauses and printed lines *)

Lemma sleeps_app (l1 l2 : list Event) : sleeps (l1 ++ l2) = sleeps l1 + sleeps l2.
Proof. unfold sleeps. by rewrite List.filter_app, length_app. Qed.

Lemma prints_app (l1 l2 : list Event) : prints (l1 ++ l2) = prints l1 + prints l2.
Proof. unfold prints. by rewrite List.filter_app, length_app. Qed.

Lemma operation_is_quiet env name i op :
  sleeps (snd (operation env name i op [])) = 0
  ∧ prints (snd (operation env name i op [])) = 0.
Proof. destruct op; run_worker; by cbn. Qed.

Lemma scrape_is_quiet cfg env i :
  sleeps (snd (scrape cfg env i [])) = 0 ∧ prints (snd (scrape cfg env i [])) = 0.
Proof. unfold scrape, divides. run_worker; by cbn. Qed.

Lemma attempt_is_quiet cfg env name i :
  sleeps (snd (attempt cfg env name i [])) = 0
  ∧ prints (snd (attempt cfg env name i [])) = 0.
Proof.
  rewrite attempt_events, sleeps_app, prints_app.
  destruct (operation_is_quiet env name i (random_choices env i)) as [-> ->].
  destruct (scrape_is_quiet cfg env i) as [Hs Hp].
  by destruct (returned (fst (operation env name i (random_choices env i) []))).
Qed.

(** The attempt of iteration [i] raised. *)
Definition failed (cfg : Config) (env : Env) (name : string) (i : nat) : bool :=
  negb (returned (fst (attempt cfg env name i []))).

Lemma iteration_sleeps_and_prints cfg env name i :
  sleeps (iteration_events cfg env name i) = 1
  ∧ prints (iteration_events cfg env name i) = if failed cfg env name i then 1 else 0.
Proof.
  rewrite iteration_after_attempt, sleeps_app, prints_app. unfold failed.
  destruct (attempt_is_quiet cfg env name i) as [-> ->].
  by destruct (fst (attempt cfg env name i [])).
Qed.

(** The pause is outside the [try]: every iteration ends with its pause,
    the only one it makes, also when the operation failed. So a worker
    pauses exactly M times, and it prints one line for each iteration that
    failed plus its last line, and nothing else. *)
Theorem worker_pauses_once_per_iteration :
  ∀ cfg env name,
    (∀ i, ∃ before,
       iteration_events cfg env name i = before ++ [Slept (random_uniform env i)]
       ∧ sleeps before = 0)
    ∧ sleeps (worker_events cfg env name) = REQUESTS_PER_CLIENT cfg
    ∧ prints (worker_events cfg env name)
      = S (length (List.filter (failed cfg env name) (seq 0 (REQUESTS_PER_CLIENT cfg)))).
Proof.
  intros cfg env name. split.
  - intros i. rewrite iteration_after_attempt.
    destruct (attempt_is_quiet cfg env name i) as [Hquiet _].
    destruct (fst (attempt cfg env name i [])) as [[] | e].
    + eexists. split; [reflexivity | exact Hquiet].
    + exists (snd (attempt cfg env name i []) ++ [Printed (error_line env name i e)]).
      split; [by rewrite <- app_assoc |]. rewrite sleeps_app, Hquiet. reflexivity.
  - unfold worker_events. rewrite sleeps_app, prints_app.
    change (sleeps [Printed ("[" +:+ name +:+ "] done")]) with 0.
    change (prints [Printed ("[" +:+ name +:+ "] done")]) with 1.
    assert (Hsum : ∀ indices : list nat,
              sleeps (concat (iteration_events cfg env name <$> indices)) = length indices
              ∧ prints (concat (iteration_events cfg env name <$> indices))
                = length (List.filter (failed cfg env name) indices)).
    { induction indices as [| i indices [IHs IHp]]; [by cbn |].
      rewrite fmap_cons. cbn [concat length List.filter].
      rewrite sleeps_app, prints_app, IHs, IHp.
      destruct (iteration_sleeps_and_prints cfg env name i) as [-> ->].
      split; [reflexivity |]. by destruct (failed cfg env name i). }
    destruct (Hsum (seq 0 (REQUESTS_PER_CLIENT cfg))) as [-> ->].
    rewrite length_seq. lia.
Qed.

(** ** The scrapes of a whole run *)

Lemma scrapes_iteration cfg env name i :
  METRICS_EVERY cfg ≠ 0 →
  scrapes (iteration_events cfg env name i)
  = if bool_decide (i mod METRICS_EVERY cfg = 0)
       && returned (fst (operation env name i (random_choices env i) []))
    then 1 else 0.
Proof.
  intros HK.
  rewrite iteration_after_attempt, scrapes_app, attempt_events, scrapes_app.
  rewrite operation_never_scrapes.
  assert (Hrest : scrapes
            match fst (attempt cfg env name i []) with
            | Return _ => [Slept (random_uniform env i)]
            | Raise e => [Printed (error_line env name i e); Slept (random_uniform env i)]
            end = 0) by (by destruct (fst (attempt cfg env name i []))).
  rewrite Hrest.
  destruct (returned (fst (operation env name i (random_choices env i) []))).
  - rewrite (scrape_events cfg env i HK), andb_true_r.
    by destruct (bool_decide (i mod METRICS_EVERY cfg = 0)).
  - by rewrite andb_false_r.
Qed.

(** The multiples of [k] below [m] are ⌈m/k⌉ many. *)
Lemma multiples_below (k m : nat) :
  k ≠ 0 →
  length (List.filter (λ i, bool_decide (i mod k = 0)) (seq 0 m)) = (m + k - 1) / k.
Proof.
  intros Hk. induction m as [| m IH].
  - cbn. symmetry. apply Nat.div_small. lia.
  - rewrite seq_S, Nat.add_0_l, List.filter_app, length_app, IH. cbn [List.filter].
    pose proof (Nat.div_mod_eq m k) as Hm.
    pose proof (Nat.mod_upper_bound m k Hk) as Hr.
    case_bool_decide as Hzero; cbn [length].
    + rewrite Hzero, Nat.add_0_r in Hm.
      assert (H1 : (m + k - 1) / k = m / k).
      { symmetry. apply (Nat.div_unique _ _ _ (k - 1)); lia. }
      assert (H2 : (S m + k - 1) / k = S (m / k)).
      { symmetry. apply (Nat.div_unique _ _ _ 0); lia. }
      lia.
    + assert (H1 : (m + k - 1) / k = S (m / k)).
      { symmetry. apply (Nat.div_unique _ _ _ (m mod k - 1)); lia. }
      assert (H2 : (S m + k - 1) / k = S (m / k)).
      { symmetry. apply (Nat.div_unique _ _ _ (m mod k)); lia. }
      lia.
Qed.

(** With a scrape interval K > 0 a worker of M iterations never sends
    more than ⌈M/K⌉ scrapes, and sends exactly that many when none of its
    operations raises (10 for the 100 iterations and the interval 10 of
    the file). *)
Theorem worker_scrapes_at_most_ceil_M_over_K :
  ∀ cfg env name,
    METRICS_EVERY cfg ≠ 0 →
    scrapes (worker_events cfg env name)
    ≤ (REQUESTS_PER_CLIENT cfg + METRICS_EVERY cfg - 1) / METRICS_EVERY cfg
    ∧ ((∀ i, i < REQUESTS_PER_CLIENT cfg →
             returned (fst (operation env name i (random_choices env i) [])) = true) →
       scrapes (worker_events cfg env name)
       = (REQUESTS_PER_CLIENT cfg + METRICS_EVERY cfg - 1) / METRICS_EVERY cfg).
Proof.
  intros cfg env name HK.
  rewrite <- (multiples_below _ (REQUESTS_PER_CLIENT cfg) HK).
  unfold worker_events. rewrite scrapes_app.
  change (scrapes [Printed ("[" +:+ name +:+ "] done")]) with 0.
  rewrite Nat.add_0_r.
  assert (Hsum : ∀ indices : list nat,
            scrapes (concat (iteration_events cfg env name <$> indices))
            ≤ length (List.filter (λ i, bool_decide (i mod METRICS_EVERY cfg = 0)) indices)
            ∧ ((∀ i, i ∈ indices →
                     returned (fst (operation env name i (random_choices env i) [])) = true) →
               scrapes (concat (iteration_events cfg env name <$> indices))
               = length (List.filter (λ i, bool_decide (i mod METRICS_EVERY cfg = 0))
                           indices))).
  { induction indices as [| i indices [IHle IHeq]]; [by cbn |].
    rewrite fmap_cons. cbn [concat List.filter].
    rewrite scrapes_app, (scrapes_iteration cfg env name i HK). split.
    - destruct (bool_decide (i mod METRICS_EVERY cfg = 0));
        destruct (returned (fst (operation env name i (random_choices env i) [])));
        cbn [andb length]; lia.
    - intros Hall. rewrite (Hall i) by (by left). rewrite andb_true_r.
      rewrite IHeq by (intros j Hj; apply Hall; by right).
      by destruct (bool_decide (i mod METRICS_EVERY cfg = 0)). }
  destruct (Hsum (seq 0 (REQUESTS_PER_CLIENT cfg))) as [Hle Heq].
  split; [exact Hle |]. intros Hall. apply Heq.
  intros i Hi. apply Hall. apply elem_of_seq in Hi. lia.
Qed.

Lemma worker_scrapes_at_most_ceil_M_over_K_witness :
  METRICS_EVERY config ≠ 0
  ∧ scrapes (worker_events config empty_service "client0") = 10.
Proof.
  assert (HK : METRICS_EVERY config ≠ 0) by (cbn; lia).
  split; [exact HK |].
  refine (proj2 (worker_scrapes_at_most_ceil_M_over_K config empty_service "client0" HK) _).
  intros i _. reflexivity.
Defined.

(** ** A scrape interval of zero *)

(** With [METRICS_EVERY = 0] the test [i % METRICS_EVERY == 0] divides by
    zero: no scrape is ever sent, and every iteration whose operation went
    through ends in the [except] clause, printing the error of the modulo
    and pausing as usual. *)
Theorem zero_interval_fails_every_iteration :
  ∀ cfg env name i,
    METRICS_EVERY cfg = 0 →
    scrapes (iteration_events cfg env name i) = 0
    ∧ (returned (fst (operation env name i (random_choices env i) [])) = true →
       iteration_events cfg env name i
       = snd (operation env name i (random_choices env i) [])
         ++ [Printed ("[" +:+ name +:+ "] error during "
                      +:+ op_name (random_choices env i)
                      +:+ ": integer modulo by zero");
             Slept (random_uniform env i)]).
Proof.
  intros cfg env name i HK.
  assert (Hattempt : attempt cfg env name i []
                     = match operation env name i (random_choices env i) [] with
                       | (Return _, l1) => (Raise ZeroDivisionError, l1)
                       | (Raise e, l1) => (Raise e, l1)
                       end).
  { unfold attempt, scrape, divides, mbind, M_bind. rewrite HK.
    by destruct (operation env name i (random_choices env i) []) as [[[] | e] l1]. }
  rewrite iteration_after_attempt, Hattempt. split.
  - pose proof (operation_never_scrapes env name i (random_choices env i)) as Hnone.
    destruct (operation env name i (random_choices env i) []) as [[[] | e] l1];
      cbn [fst snd] in *; by rewrite scrapes_app, Hnone.
  - intros Hreturned.
    destruct (operation env name i (random_choices env i) []) as [[[] | e] l1];
      [reflexivity | discriminate Hreturned].
Qed.

Definition no_scrape_config : Config :=
  {| API_URL := API_URL config; CONCURRENCY := 1; REQUESTS_PER_CLIENT := 2;
     OP_WEIGHTS := OP_WEIGHTS config; METRICS_EVERY := 0 |}.

Lemma zero_interval_fails_every_iteration_witness :
  METRICS_EVERY no_scrape_config = 0
  ∧ iteration_events no_scrape_config empty_service "client0" 1
    = [Sent {| verb := GET; url := url_data; json_body := None |};
       Printed "[client0] error during read: integer modulo by zero";
       Slept 0.01%float].
Proof.
  split; [reflexivity |].
  exact (proj2 (zero_interval_fails_every_iteration no_scrape_config empty_service
                  "client0" 1 eq_refl) eq_refl).
Defined.

(** ** The names of the records a run creates *)

Lemma underscore_free_pretty_N_go (x : N) (s : string) :
  underscore_free s = true → underscore_free (pretty_N_go x s) = true.
Proof.
  revert s. induction (N.lt_wf_0 x) as [x _ IH]; intros s Hs.
  assert (x = 0 ∨ 0 < x)%N as [-> | Hpos] by lia.
  - by rewrite pretty_N_go_0.
  - rewrite pretty_N_go_step by done. apply IH.
    + by apply N.div_lt.
    + cbn. rewrite Hs, andb_true_r. unfold pretty_N_char. by repeat case_match.
Qed.

Lemma underscore_free_pretty (n : nat) : underscore_free (pretty n) = true.
Proof.
  unfold pretty, pretty_nat, pretty, pretty_N.
  case_decide; [reflexivity |]. by apply underscore_free_pretty_N_go.
Qed.

(** Two strings without underscore, each followed by an underscore and a
    rest, are equal only part by part. *)
Lemma split_at_underscore (a b t t' : string) :
  underscore_free a = true → underscore_free b = true →
  a +:+ String "_" t = b +:+ String "_" t' → a = b ∧ t = t'.
Proof.
  revert b. induction a as [| c a IH]; intros [| c' b] Ha Hb Heq; cbn in *;
    simplify_eq; try done.
  apply andb_true_iff in Ha as [_ Ha], Hb as [_ Hb].
  by destruct (IH b Ha Hb H) as [-> ->].
Qed.

(** A create operation sends one request, the POST of its payload, and the
    name in that payload is met nowhere else in the run: the payloads of
    two iterations of a worker differ, and so do those of any two of the
    workers [main] starts, whatever their iterations. *)
Theorem created_names_are_unique :
  (∀ env name i,
     snd (operation env name i create [])
     = [Sent {| verb := POST; url := url_data;
                json_body := Some (create_payload name i) |}])
  ∧ (∀ name i i', create_payload name i = create_payload name i' → i = i')
  ∧ (∀ j j' i i' : nat,
       create_payload (client j) i = create_payload (client j') i' → j = j' ∧ i = i').
Proof.
  split; [| split].
  - intros env name i. unfold create_payload. run_worker; reflexivity.
  - intros name i i' Heq. unfold create_payload in Heq.
    injection Heq as Hname _. cbn in Hname.
    apply (inj (String.app name)) in Hname. cbn in Hname.
    injection Hname as Hname. change (pretty i = pretty i') in Hname.
    by apply (inj pretty) in Hname.
  - intros j j' i i' Heq. unfold create_payload, client in Heq.
    injection Heq as Hname _. cbn in Hname.
    destruct (split_at_underscore (pretty j) (pretty j') (pretty i) (pretty i')
                (underscore_free_pretty j) (underscore_free_pretty j') Hname)
      as [Hj Hi].
    split; by apply (inj pretty).
Qed.

Lemma created_names_are_unique_witness :
  create_payload (client 1) 11 = create_payload (client 1) 11
  ∧ create_payload (client 1) 11 ≠ create_payload (client 11) 1.
Proof.
  split; [reflexivity |].
  intros Heq.
  destruct (proj2 (proj2 created_names_are_unique) 1 11 11 1 Heq) as [Hj _].
  discriminate Hj.
Defined.

(** ** What a worker writes to *)

(** A worker never updates or deletes blindly: whenever an operation sends
    a PUT or a DELETE, the operation is an update or a delete, its list
    request was answered with a JSON list, and the request goes to the
    ["id"] of the element of that list at the index drawn below its length.
    Create and read operations, a failed or unreadable list answer, an
    answer that is no list and an element without ["id"] lead to no PUT and
    no DELETE. *)
Theorem writes_only_to_fetched_records :
  ∀ env name i op e,
    e ∈ snd (operation env name i op []) →
    is_write e = true →
    (op = update ∨ op = delete)
    ∧ ∃ r items item item_id body,
        send env i list_request = Return r
        ∧ json_ r = Return (JArr items)
        ∧ items !! randbelow env i (length items) = Some item
        ∧ subscript item "id" = Return item_id
        ∧ e = Sent {| verb := write_verb op; url := url_data_item item_id;
                      json_body := body |}.
Proof.
  intros env name i op e.
  destruct op;
    unfold operation, client_get, client_post, client_put, client_delete, request,
      lift, emit, modify, mbind, M_bind, mret, M_ret; cbn; fold list_request;
    repeat (case_match; simplify_eq; cbn in * );
    intros Hin Hwrite;
    repeat match goal with
           | H : _ ∈ _ :: _ |- _ => apply elem_of_cons in H as [-> | H]
           | H : _ ∈ [] |- _ => by apply elem_of_nil in H
           end;
    try discriminate;
    (split; [by eauto |]);
    match goal with
    | H : random_choice _ ?items = Return _ |- _ =>
        destruct items; cbn in *; simplify_eq;
        repeat (case_match; simplify_eq; cbn in *; simplify_eq)
    end;
    eauto 12.
Qed.

Lemma writes_only_to_fetched_records_witness :
  Sent {| verb := DELETE; url := url_data_item (JInt 2); json_body := None |}
    ∈ snd (operation SystemFacts.two_records "client0" 3 delete [])
  ∧ ∃ r items item item_id body,
      send SystemFacts.two_records 3 list_request = Return r
      ∧ json_ r = Return (JArr items)
      ∧ items !! randbelow SystemFacts.two_records 3 (length items) = Some item
      ∧ subscript item "id" = Return item_id
      ∧ Sent {| verb := DELETE; url := url_data_item (JInt 2); json_body := None |}
        = Sent {| verb := write_verb delete; url := url_data_item item_id;
                  json_body := body |}.
Proof.
  assert (Hin : Sent {| verb := DELETE; url := url_data_item (JInt 2); json_body := None |}
                  ∈ snd (operation SystemFacts.two_records "client0" 3 delete [])).
  { cbn. right. left. }
  split; [exact Hin |].
  exact (proj2 (writes_only_to_fetched_records SystemFacts.two_records "client0" 3 delete
                  _ Hin eq_refl)).
Defined.

(** ** Answers with an error status *)

Definition create_request (name : string) (i : nat) : HttpRequest :=
  {| verb := POST; url := url_data; json_body := Some (create_payload name i) |}.

(** The worker looks at no status code but the 201 of a create: a request
    that is answered at all counts as done. A read ends normally on any
    answer, a create on any answer whose status is not 201 (its body is
    not looked at), and an update or delete of a fetched record on any
    answer to its PUT or DELETE; none of them prints an error for a 404 or
    a 500. *)
Theorem answered_requests_are_not_errors :
  ∀ env name i,
    (∀ resp, send env i list_request = Return resp →
       operation env name i read [] = (Return tt, [Sent list_request]))
    ∧ (∀ resp, send env i (create_request name i) = Return resp →
       status_code resp ≠ 201%Z →
       operation env name i create [] = (Return tt, [Sent (create_request name i)]))
    ∧ (∀ op r items item_id name' email message resp,
         op = update ∨ op = delete →
         send env i list_request = Return r →
         json_ r = Return (JArr items) →
         items !! randbelow env i (length items)
         = Some (record_json item_id name' email message) →
         send env i (write_request op item_id name' email) = Return resp →
         operation env name i op []
         = (Return tt, [Sent list_request; Sent (write_request op item_id name' email)])).
Proof.
  intros env name i. split; [| split].
  - intros resp Hsend.
    unfold operation, client_get, request, lift, emit, modify, mbind, M_bind; cbn.
    fold list_request. by rewrite Hsend.
  - intros resp Hsend Hstatus.
    unfold operation, client_post, request, lift, emit, modify, mbind, M_bind; cbn.
    fold (create_payload name i). fold (create_request name i). rewrite Hsend. cbn.
    by rewrite bool_decide_eq_false_2.
  - intros op r items item_id name' email message resp [-> | ->] Hsend Hjson Hpick Hwrite;
      unfold operation, client_get, client_put, client_delete, request, lift, emit,
        modify, mbind, M_bind; cbn;
      fold list_request; rewrite Hsend; cbn; rewrite Hjson; cbn;
      (destruct items as [| first items]; [done |]); cbn; cbn in Hpick; rewrite Hpick; cbn;
      cbn in Hwrite; by rewrite Hwrite.
Qed.

(** A service that answers every request with 500 and an error body. *)
Definition failing_service : Env :=
  {| random_choices := λ _, read;
     send := λ _ _,
       Return {| status_code := 500;
                 json_ := Return (JObj [("detail", JStr "Internal Server Error")]) |};
     randbelow := λ _ _, 0;
     random_uniform := λ _, 0.01%float |}.

Lemma answered_requests_are_not_errors_witness :
  send failing_service 4 (create_request "client0" 4)
  = Return {| status_code := 500;
              json_ := Return (JObj [("detail", JStr "Internal Server Error")]) |}
  ∧ operation failing_service "client0" 4 create []
    = (Return tt, [Sent (create_request "client0" 4)]).
Proof.
  split; [reflexivity |].
  refine (proj1 (proj2 (answered_requests_are_not_errors failing_service "client0" 4))
            _ eq_refl _).
  cbn. lia.
Defined.

End LoadtestRestFacts.

(* ================================================================== *)
(** * More about the worker against the service                        *)
(* ================================================================== *)
Module SystemRest.
Import Python.

(** A response of the service as the worker's client hands it over. *)
Definition http_response (response : Main.Response) : Loadtest.HttpResponse :=
  {| Loadtest.status_code := Main.status_code response;
     Loadtest.json_ := Return (Main.content response) |}.

End SystemRest.

Module SystemRestFacts.
Import Python Loadtest LoadtestFacts LoadtestRest LoadtestRestFacts SystemRest.

(** The worker reads what the service writes. When [POST /data] of the
    service answers a create with the record the store made, the worker
    finds the status 201 and the ["id"] it looks for, and the operation
    ends normally. When [GET /data] of the service answers the list
    request with the rows of the store query, an update or delete sends its
    PUT or DELETE to the id of the row at the drawn index; the body of the
    PUT has the three fields of a create body: the row's name with [_upd]
    appended, the row's email, and the message [updated]. *)
Theorem worker_reads_what_the_service_sends :
  ∀ (env : Env) (name : string) (i : nat),
    (∀ create_user_data data w row s',
       create_user_data data (Main.db w) = (Return row, s') →
       send env i (create_request name i)
       = Return (http_response (Main.JSONResponse 201 (Main.UserData_json row))) →
       fst (MainRest.POST_data create_user_data data w)
       = Return (Main.JSONResponse 201 (Main.UserData_json row))
       ∧ operation env name i create [] = (Return tt, [Sent (create_request name i)]))
    ∧ (∀ crud w rows s' row op,
         op = update ∨ op = delete →
         Main.get_user_data crud 0 100 (Main.db w) = (Return rows, s') →
         send env i list_request
         = Return (http_response
                     (Main.JSONResponse 200 (JArr (Main.UserData_json <$> rows)))) →
         rows !! randbelow env i (length rows) = Some row →
         fst (Main.GET_data crud None None w)
         = Return (Main.JSONResponse 200 (JArr (Main.UserData_json <$> rows)))
         ∧ snd (operation env name i op [])
           = [Sent list_request;
              Sent (write_request op (JInt (Main.id row)) (Main.name row)
                      (JStr (Main.email row)))]).
Proof.
  intros env name i. split.
  - intros create data w row s' Hcreate Hsend. split.
    + unfold MainRest.POST_data, Main.respond, MainRest.create_data, zoom, try_except,
        mbind, M_bind. cbn. by rewrite Hcreate.
    + unfold operation, client_post, request, lift, emit, modify, mbind, M_bind; cbn.
      fold (create_payload name i). fold (create_request name i). by rewrite Hsend.
  - intros crud w rows s' row op Hop Hquery Hsend Hpick. split.
    + unfold Main.GET_data, Main.respond, Main.read_data, zoom, try_except,
        mbind, M_bind. cbn. by rewrite Hquery.
    + eapply (record_is_written env name i op _ (Main.UserData_json <$> rows)
                (JInt (Main.id row)) (Main.name row) (JStr (Main.email row))
                (JStr (Main.message row)) Hop Hsend); [reflexivity |].
      rewrite length_fmap, list_lookup_fmap, Hpick. reflexivity.
Qed.

(** The list request answered by the service over a store of one record. *)
Definition served_one_record : Env :=
  {| random_choices := λ _, update;
     send := λ _ _,
       Return (http_response
                 (Main.JSONResponse 200
                    (JArr (Main.UserData_json
                             <$> Main.table (Main.db MainFacts.one_record)))));
     randbelow := λ _ _, 0;
     random_uniform := λ _, 0.01%float |}.

Lemma worker_reads_what_the_service_sends_witness :
  Main.get_user_data Main.spec_crud 0 100 (Main.db MainFacts.one_record)
  = (Return (Main.table (Main.db MainFacts.one_record)), Main.db MainFacts.one_record)
  ∧ snd (operation served_one_record "client0" 1 update [])
    = [Sent list_request;
       Sent {| verb := PUT; url := url_data_item (JInt 1);
               json_body := Some (JObj [("name", JStr "a_upd"); ("email", JStr "a@x.com");
                                        ("message", JStr "updated")]) |}].
Proof.
  split; [reflexivity |].
  exact (proj2 (proj2 (worker_reads_what_the_service_sends served_one_record "client0" 1)
                  Main.spec_crud MainFacts.one_record _ _
                  {| Main.id := 1; Main.name := "a"; Main.email := "a@x.com";
                     Main.message := "m" |}
                  update (or_introl eq_refl) eq_refl eq_refl eq_refl)).
Defined.

End SystemRestFacts.
